(** * mock-http-api: the MockAPI request handler over testify's mock.Mock

    A shallow embedding of [mockapi.go] (package mockapi): request
    normalisation in [ServeHTTP], the registration helpers ([WithRequest],
    [DefaultHandler], [WithJSONReply], ...), the [MockAPICall] wrappers and
    the two assertion entry points.

    The handler delegates matching and call counting to
    [github.com/stretchr/testify/mock]; the part of that package the handler
    reaches ([On], [Return], [Times], [Maybe], [WaitUntil], [Called],
    [AssertExpectations] and [Arguments.Diff]) is embedded below, function
    by function, under the headings that start with "testify".
    [encoding/json] is taken as a parameter of the development.  Requests
    are served one at a time: the mutex of [mock.Mock] is not modelled. *)

From Stdlib Require Import ZArith.
From stdpp Require Import gmap strings list fin_maps.
From Stdlib Require Strings.Byte.

Local Open Scope Z_scope.

Abbreviation byte := Corelib.Init.Byte.byte.

#[global] Instance byte_eq_dec : EqDecision byte := Stdlib.Strings.Byte.byte_eq_dec.

(** The line feed that [json.Encoder] ends every value with. *)
Definition newline : byte := Corelib.Init.Byte.x0a.

(** Go's [error] values are identified by their message. *)
Definition error := string.
(** A receive-only channel [<-chan time.Time], by identity. *)
Definition chan := nat.
(** A test reporter (an implementation of [TestingT]), by identity. *)
Definition TestingT := nat.

(** Go's [int] on the 64-bit platforms: [x + 1] and [x - 1] wrap around. *)
Definition max_int : Z := 2 ^ 63 - 1.
Definition min_int : Z := - 2 ^ 63.
Definition wrap_int (x : Z) : Z := (x + 2 ^ 63) mod 2 ^ 64 - 2 ^ 63.

(** What the handler writes to its [http.ResponseWriter]; the sink records
    the calls in order, as [httptest.ResponseRecorder] does. *)
Inductive SinkEvent :=
| SWriteHeader (status : Z)
| SWrite (b : list byte).

(** The inbound [*http.Request], as far as [ServeHTTP] reads it.
    [r_Query] is the result of [r.URL.Query()]; [r_Body] is [None] for a nil
    [r.Body] and otherwise what [ioutil.ReadAll] returns on it. *)
Record Request := {
  r_Method : string;
  r_Path : string;
  r_Header : gmap string (list string);
  r_Query : gmap string (list string);
  r_Body : option (list byte * option error);
}.

(** The request [r] with the header [hdr] set to [values]. *)
Definition with_header (hdr : string) (values : list string) (r : Request) : Request :=
  {| r_Method := r_Method r; r_Path := r_Path r;
     r_Header := <[hdr := values]> (r_Header r);
     r_Query := r_Query r; r_Body := r_Body r |}.

(** The request [r] with the query parameter [param] set to [values]. *)
Definition with_query (param : string) (values : list string) (r : Request) : Request :=
  {| r_Method := r_Method r; r_Path := r_Path r; r_Header := r_Header r;
     r_Query := <[param := values]> (r_Query r); r_Body := r_Body r |}.

(** The body bytes a sink has received, whatever the number of [Write]
    calls they arrived in. *)
Fixpoint sink_body (s : list SinkEvent) : list byte :=
  match s with
  | [] => []
  | SWriteHeader _ :: s' => sink_body s'
  | SWrite b :: s' => b ++ sink_body s'
  end.

(** An [io.Reader]: the bytes it yields and the error (other than [io.EOF])
    it ends with, if any. *)
Definition Reader : Type := list byte * option error.

Section MockAPI.

(** The decoded form of a JSON object, Go's [map[string]interface{}], with
    [reflect.DeepEqual] as its equality; and the type of the non-nil values
    that can be passed as the reply of [WithJSONReply]. *)
Context {jobject : Type} `{!EqDecision jobject} {reply : Type}.

(** [json.Unmarshal(data, &bodyMap)] for a nil [bodyMap] of type
    [map[string]interface{}]: the value of [bodyMap] after the call ([None]
    is the nil map) and the returned error. *)
Variable json_Unmarshal : list byte -> option jobject * option error.

(** [json.Marshal] on a reply value. *)
Variable json_Marshal : reply -> list byte + error.

(** ** Values of type [interface{}] that reach the mock as arguments *)

Inductive Value :=
| VNil                                         (* the nil interface *)
| VString (s : string)
| VStrMap (m : option (gmap string string))    (* map[string]string; None is the nil map *)
| VBytes (b : option (list byte))              (* []byte; None is the nil slice *)
| VObjMap (m : option jobject)                 (* map[string]interface{} *)
| VAnythingOfType (t : string).                (* mock.AnythingOfTypeArgument *)

#[global] Instance Value_eq_dec : EqDecision Value.
Proof. solve_decision. Defined.

(** [mock.Anything] is the string constant ["mock.Anything"]. *)
Definition Anything : Value := VString "mock.Anything".
Definition Missing : Value := VString "(Missing)".

(** [reflect.TypeOf(v)]: [None] for the nil interface, otherwise the pair of
    [Name()] and [String()] of the dynamic type. *)
Definition TypeOf (v : Value) : option (string * string) :=
  match v with
  | VNil => None
  | VString _ => Some ("string", "string")
  | VStrMap _ => Some ("", "map[string]string")
  | VBytes _ => Some ("", "[]uint8")
  | VObjMap _ => Some ("", "map[string]interface {}")
  | VAnythingOfType _ => Some ("AnythingOfTypeArgument", "mock.AnythingOfTypeArgument")
  end%string.

(** The response closures.  [WithNoResponseBody], [WithJSONReply],
    [WithTxtReply] and [WithStreamingReply] each build one closure; a
    closure supplied by the caller is represented by the writes it performs
    on the sink for a given request. *)
Inductive Response :=
| NoResponseBody (status : Z)
| JSONReply (status : Z) (r : option reply)
| TxtReply (status : Z) (s : string)
| StreamingReply (status : Z) (rd : option Reader)
| UserFunc (script : Request -> list SinkEvent).

(** A return argument with its dynamic type: the named type [MockResponse]
    or the unnamed [func(http.ResponseWriter, *http.Request)]. *)
Inductive RetValue :=
| RetMockResponse (f : Response)
| RetFunc (f : Response).

(** Messages handed to the reporter. *)
Inductive Msg :=
| MsgText (s : string)
| MsgNoError (e : error)                              (* require.NoError *)
| MsgCalledOver (n : Z) (method : string) (args : list Value)
| MsgUnexpectedCall (method : string) (args : list Value)
| MsgFAIL (method : string) (args : list Value)
| MsgPASS (method : string) (args : list Value)
| MsgSummary (met total : Z).

Inductive TEvent :=
| TErrorf (msg : Msg)
| TLogf (msg : Msg)
| TFailNow.

Inductive PanicValue :=
| PanicNilDeref
| PanicIndex
| PanicErr (e : option error)
| PanicMsg (msg : Msg)
| PanicGet (index : Z) (len : nat).

(** ** testify: argument comparison *)

(** [assert.ObjectsAreEqual(expected, actual)]. *)
Definition ObjectsAreEqual (expected actual : Value) : bool :=
  match expected, actual with
  | VNil, VNil => true
  | VNil, _ | _, VNil => false
  | VBytes exp, VBytes act =>
      match exp, act with
      | None, None => true
      | Some x, Some y => bool_decide (x = y)      (* bytes.Equal *)
      | _, _ => false
      end
  | VBytes _, _ => false
  | _, _ => bool_decide (expected = actual)        (* reflect.DeepEqual *)
  end.

(** One round of the loop of [Arguments.Diff]: does position [i] count as a
    difference?  [None] is the run-time panic of [reflect.TypeOf(actual).Name()]
    on a nil [actual]. *)
Definition arg_differs (expected actual : Value) : option bool :=
  match expected with
  | VAnythingOfType t =>
      match TypeOf actual with
      | None => None
      | Some (name, str) => Some (bool_decide (name ≠ t) && bool_decide (str ≠ t))
      end
  | _ =>
      Some (negb (ObjectsAreEqual expected Anything
                  || ObjectsAreEqual actual Anything
                  || ObjectsAreEqual actual expected))
  end.

Fixpoint count_differences (ps : list (Value * Value)) : option nat :=
  match ps with
  | [] => Some 0%nat
  | (expected, actual) :: ps' =>
      match arg_differs expected actual with
      | None => None
      | Some d =>
          match count_differences ps' with
          | None => None
          | Some n => Some ((if d then 1 else 0) + n)%nat
          end
      end
  end.

(** The shorter of the two lists is completed with ["(Missing)"]. *)
Definition pad (n : nat) (l : list Value) : list Value :=
  l ++ replicate (n - length l) Missing.

(** [args.Diff(objects)]: the number of differences. *)
Definition Diff (args objects : list Value) : option nat :=
  let maxArgCount := (length args `max` length objects)%nat in
  count_differences (zip (pad maxArgCount args) (pad maxArgCount objects)).

(** ** testify: [mock.Call] and [mock.Mock] *)

(** The fields of [mock.Call] that the wrappers of [MockAPICall] can set.
    ([RunFn], [PanicValue] and [waitTime] keep their zero values: no wrapper
    reaches them.) *)
Record Call := {
  Method : string;
  Arguments : list Value;
  ReturnArguments : list RetValue;
  Repeatability : Z;
  totalCalls : Z;
  optional : bool;
  WaitFor : option chan;
}.

(** [mock.Mock].  [ExpectedCalls] holds [*Call] pointers; a pointer is the
    position of the call in the list, which only ever grows. *)
Record Mock := {
  ExpectedCalls : list Call;
  Calls : list (string * list Value);
  test : option TestingT;
}.

Record MockAPI := {
  t : option TestingT;
  filteredHeaders : gset string;
  filteredParams : gset string;
  m : Mock;
}.

(** [MockAPICall] wraps the [*mock.Call] it was created for. *)
Record MockAPICall := { c : nat }.

Record MockRequest := {
  method : string;
  path : string;
  body : Value;
  headers : option (gmap string string);
  queryParams : option (gmap string string);
}.

(** ** The state a request handler runs in, and its outcomes *)

Record World := {
  api : MockAPI;
  log : list (TestingT * TEvent);
  sink : list SinkEvent;
}.

(** A handler runs to completion, panics, is ended by [runtime.Goexit] (the
    way [FailNow] stops a goroutine), or is suspended at a channel receive,
    to be resumed in the state that holds when the channel delivers. *)
Inductive Res (A : Type) :=
| Ok (a : A) (w : World)
| Panic (v : PanicValue) (w : World)
| Goexit (w : World)
| Blocked (ch : chan) (w : World) (k : World -> Res A).
Arguments Ok {A} a w.
Arguments Panic {A} v w.
Arguments Goexit {A} w.
Arguments Blocked {A} ch w k.

Definition M (A : Type) : Type := World -> Res A.

Fixpoint bind_res {A B} (r : Res A) (f : A -> M B) : Res B :=
  match r with
  | Ok a w => f a w
  | Panic v w => Panic v w
  | Goexit w => Goexit w
  | Blocked ch w k => Blocked ch w (fun w' => bind_res (k w') f)
  end.

Definition ret {A} (a : A) : M A := fun w => Ok a w.
Definition bind {A B} (x : M A) (f : A -> M B) : M B := fun w => bind_res (x w) f.
Definition panic {A} (v : PanicValue) : M A := fun w => Panic v w.

Notation "x <- c1 ;; c2" := (bind c1 (fun x => c2))
  (at level 100, c1 at next level, right associativity).
Notation "c1 ;; c2" := (bind c1 (fun _ => c2))
  (at level 100, right associativity).

Definition set_log (l : list (TestingT * TEvent)) (w : World) : World :=
  {| api := api w; log := l; sink := sink w |}.
Definition set_sink (s : list SinkEvent) (w : World) : World :=
  {| api := api w; log := log w; sink := s |}.
Definition set_mock (mk : Mock) (w : World) : World :=
  {| api := {| t := t (api w); filteredHeaders := filteredHeaders (api w);
               filteredParams := filteredParams (api w); m := mk |};
     log := log w; sink := sink w |}.

(** *** The reporter: [Errorf], [Logf] and [FailNow] of a [TestingT].
    A method call on the nil interface is a nil-pointer dereference. *)
Definition Errorf (t0 : option TestingT) (msg : Msg) : M unit := fun w =>
  match t0 with
  | None => Panic PanicNilDeref w
  | Some r => Ok tt (set_log (log w ++ [(r, TErrorf msg)]) w)
  end.

Definition Logf (t0 : option TestingT) (msg : Msg) : M unit := fun w =>
  match t0 with
  | None => Panic PanicNilDeref w
  | Some r => Ok tt (set_log (log w ++ [(r, TLogf msg)]) w)
  end.

Definition FailNow {A} (t0 : option TestingT) : M A := fun w =>
  match t0 with
  | None => Panic PanicNilDeref w
  | Some r => Goexit (set_log (log w ++ [(r, TFailNow)]) w)
  end.

(** [require.NoError(t, err)] for a non-nil [t]. *)
Definition require_NoError (t0 : option TestingT) (err : option error) : M unit :=
  match err with
  | None => ret tt
  | Some e => Errorf t0 (MsgNoError e) ;; FailNow t0
  end.

(** *** The sink *)
Definition WriteHeader (status : Z) : M unit := fun w =>
  Ok tt (set_sink (sink w ++ [SWriteHeader status]) w).
Definition Write (b : list byte) : M unit := fun w =>
  Ok tt (set_sink (sink w ++ [SWrite b]) w).

(** ** testify: registering expectations *)

(** [newCall(parent, methodName, callerInfo, methodArguments...)]. *)
Definition newCall (methodName : string) (methodArguments : list Value) : Call :=
  {| Method := methodName; Arguments := methodArguments; ReturnArguments := [];
     Repeatability := 0; totalCalls := 0; optional := false; WaitFor := None |}.

(** [m.On(methodName, arguments...)]: appends a fresh call and returns the
    pointer to it. *)
Definition On (methodName : string) (arguments : list Value) (mk : Mock) : nat * Mock :=
  (length (ExpectedCalls mk),
   {| ExpectedCalls := ExpectedCalls mk ++ [newCall methodName arguments];
      Calls := Calls mk; test := test mk |}).

Definition update_call (f : Call -> Call) (i : nat) (mk : Mock) : Mock :=
  {| ExpectedCalls := alter f i (ExpectedCalls mk); Calls := Calls mk; test := test mk |}.

Definition Call_Return (returnArguments : list RetValue) : nat -> Mock -> Mock :=
  update_call (fun k =>
    {| Method := Method k; Arguments := Arguments k; ReturnArguments := returnArguments;
       Repeatability := Repeatability k; totalCalls := totalCalls k;
       optional := optional k; WaitFor := WaitFor k |}).

Definition Call_Times (i : Z) : nat -> Mock -> Mock :=
  update_call (fun k =>
    {| Method := Method k; Arguments := Arguments k; ReturnArguments := ReturnArguments k;
       Repeatability := i; totalCalls := totalCalls k;
       optional := optional k; WaitFor := WaitFor k |}).

Definition Call_Once : nat -> Mock -> Mock := Call_Times 1.
Definition Call_Twice : nat -> Mock -> Mock := Call_Times 2.

Definition Call_Maybe : nat -> Mock -> Mock :=
  update_call (fun k =>
    {| Method := Method k; Arguments := Arguments k; ReturnArguments := ReturnArguments k;
       Repeatability := Repeatability k; totalCalls := totalCalls k;
       optional := true; WaitFor := WaitFor k |}).

Definition Call_WaitUntil (w : chan) : nat -> Mock -> Mock :=
  update_call (fun k =>
    {| Method := Method k; Arguments := Arguments k; ReturnArguments := ReturnArguments k;
       Repeatability := Repeatability k; totalCalls := totalCalls k;
       optional := optional k; WaitFor := Some w |}).

(** [m.Test(t)]. *)
Definition Mock_Test (t0 : option TestingT) (mk : Mock) : Mock :=
  {| ExpectedCalls := ExpectedCalls mk; Calls := Calls mk; test := t0 |}.

(** ** testify: serving a call *)

(** The result of [findExpectedCall]: [(i, call)] with [i >= 0], or
    [(-1, expectedCall)] where [expectedCall] is nil or the last call whose
    arguments agree but whose repetitions are used up. *)
Inductive Lookup :=
| Found (i : nat)
| NotFound (expectedCall : option nat).

Fixpoint findExpectedCall_from (i : nat) (calls : list Call) (methodName : string)
    (args : list Value) (expectedCall : option nat) : option Lookup :=
  match calls with
  | [] => Some (NotFound expectedCall)
  | call :: rest =>
      if bool_decide (Method call = methodName) then
        match Diff (Arguments call) args with
        | None => None
        | Some O =>
            if bool_decide (Repeatability call > -1) then Some (Found i)
            else findExpectedCall_from (S i) rest methodName args (Some i)
        | Some (S _) => findExpectedCall_from (S i) rest methodName args expectedCall
        end
      else findExpectedCall_from (S i) rest methodName args expectedCall
  end.

Definition findExpectedCall (mk : Mock) (methodName : string) (args : list Value)
    : option Lookup :=
  findExpectedCall_from 0 (ExpectedCalls mk) methodName args None.

(** [m.fail(format, args...)]: panics without a reporter, otherwise
    [Errorf] followed by [FailNow]. *)
Definition fail {A} (msg : Msg) : M A := fun w =>
  match test (m (api w)) with
  | None => Panic (PanicMsg msg) w
  | Some r => (Errorf (Some r) msg ;; FailNow (Some r)) w
  end.

(** The bookkeeping of [MethodCalled] on the call it found. *)
Definition consume (k : Call) : Call :=
  {| Method := Method k; Arguments := Arguments k; ReturnArguments := ReturnArguments k;
     Repeatability :=
       if Repeatability k =? 1 then -1
       else if Repeatability k >? 1 then wrap_int (Repeatability k - 1)
       else Repeatability k;
     totalCalls := wrap_int (totalCalls k + 1);
     optional := optional k; WaitFor := WaitFor k |}.

Definition record_call (i : nat) (methodName : string) (arguments : list Value)
    (mk : Mock) : Mock :=
  {| ExpectedCalls := alter consume i (ExpectedCalls mk);
     Calls := Calls mk ++ [(methodName, arguments)];
     test := test mk |}.

(** After the wait: the return arguments are read from the call as it is
    then. *)
Definition returnArgs (i : nat) : M (list RetValue) := fun w =>
  Ok (default [] (ReturnArguments <$> ExpectedCalls (m (api w)) !! i)) w.

(** [m.MethodCalled(methodName, arguments...)]. *)
Definition MethodCalled (methodName : string) (arguments : list Value)
    : M (list RetValue) := fun w =>
  match findExpectedCall (m (api w)) methodName arguments with
  | None => Panic PanicNilDeref w
  | Some (NotFound (Some j)) =>
      fail (MsgCalledOver
              (default 0 (totalCalls <$> ExpectedCalls (m (api w)) !! j))
              methodName arguments) w
  | Some (NotFound None) => fail (MsgUnexpectedCall methodName arguments) w
  | Some (Found i) =>
      let w1 := set_mock (record_call i methodName arguments (m (api w))) w in
      match ExpectedCalls (m (api w1)) !! i ≫= WaitFor with
      | Some ch => Blocked ch w1 (returnArgs i)       (* <-call.WaitFor *)
      | None => returnArgs i w1
      end
  end.

(** [m.Called(arguments...)] from within [ServeHTTP]: the method name is the
    name of the calling function. *)
Definition Called (arguments : list Value) : M (list RetValue) :=
  MethodCalled "ServeHTTP" arguments.

(** [args.Get(index)]. *)
Definition Get (args : list RetValue) (index : nat) : M RetValue :=
  match args !! index with
  | Some v => ret v
  | None => panic (PanicGet (Z.of_nat index) (length args))
  end.

(** ** testify: [AssertExpectations] *)

Fixpoint methodWasCalled (calls : list (string * list Value)) (methodName : string)
    (expectedArgs : list Value) : option bool :=
  match calls with
  | [] => Some false
  | (mth, args) :: rest =>
      if bool_decide (mth = methodName) then
        match Diff expectedArgs args with
        | None => None
        | Some O => Some true
        | Some (S _) => methodWasCalled rest methodName expectedArgs
        end
      else methodWasCalled rest methodName expectedArgs
  end.

(** Is the expectation met?  [None] is a panic inside [Diff]. *)
Definition checkExpectation (mk : Mock) (k : Call) : option bool :=
  if optional k then Some (negb (Repeatability k >? 0))
  else
    match methodWasCalled (Calls mk) (Method k) (Arguments k) with
    | None => None
    | Some called =>
        if negb called && (totalCalls k =? 0) then Some false
        else Some (negb (Repeatability k >? 0))
    end.

(** The loop over the expected calls; returns the number of failed ones. *)
Fixpoint assert_loop (t0 : option TestingT) (mk : Mock) (calls : list Call)
    (failedExpectations : Z) : M Z :=
  match calls with
  | [] => ret failedExpectations
  | k :: rest =>
      match checkExpectation mk k with
      | None => panic PanicNilDeref
      | Some true =>
          Logf t0 (MsgPASS (Method k) (Arguments k)) ;;
          assert_loop t0 mk rest failedExpectations
      | Some false =>
          Logf t0 (MsgFAIL (Method k) (Arguments k)) ;;
          assert_loop t0 mk rest (failedExpectations + 1)
      end
  end.

(** [m.AssertExpectations(t)]. *)
Definition Mock_AssertExpectations (t0 : option TestingT) : M bool := fun w =>
  let mk := m (api w) in
  (failedExpectations <- assert_loop t0 mk (ExpectedCalls mk) 0 ;;
   if failedExpectations =? 0 then ret true
   else
     Errorf t0 (MsgSummary (Z.of_nat (length (ExpectedCalls mk)) - failedExpectations)
                           (Z.of_nat (length (ExpectedCalls mk)))) ;;
     ret false) w.

(** ** mockapi.go *)

(** [checkError(t, err)]. *)
Definition checkError (t0 : option TestingT) (err : option error) : M unit :=
  match t0 with
  | Some _ => require_NoError t0 err
  | None =>
      match err with
      | Some e => panic (PanicErr (Some e))
      | None => ret tt
      end
  end.

Definition NewMockRequest (method0 path0 : string) : MockRequest :=
  {| method := method0; path := path0; body := VNil; headers := None; queryParams := None |}.

Definition WithBody (body0 : Value) (r : MockRequest) : MockRequest :=
  {| method := method r; path := path r; body := body0;
     headers := headers r; queryParams := queryParams r |}.

Definition WithHeaders (headers0 : option (gmap string string)) (r : MockRequest)
    : MockRequest :=
  {| method := method r; path := path r; body := body r;
     headers := headers0; queryParams := queryParams r |}.

Definition WithQueryParams (params : option (gmap string string)) (r : MockRequest)
    : MockRequest :=
  {| method := method r; path := path r; body := body r;
     headers := headers r; queryParams := params |}.

(** [NewMockAPI(t)].  (The HTTP server and the [Cleanup] hook are the
    transport's and the test framework's.) *)
Definition NewMockAPI (t0 : option TestingT) : MockAPI :=
  {| t := t0; filteredHeaders := ∅; filteredParams := ∅;
     m := Mock_Test t0 {| ExpectedCalls := []; Calls := []; test := None |} |}.

Definition SetFilteredHeaders (hdrs : list string) (a : MockAPI) : MockAPI :=
  {| t := t a; filteredHeaders := list_to_set hdrs;
     filteredParams := filteredParams a; m := m a |}.

Definition SetFilteredQueryParams (params : list string) (a : MockAPI) : MockAPI :=
  {| t := t a; filteredHeaders := filteredHeaders a;
     filteredParams := list_to_set params; m := m a |}.

Definition with_mock (f : Mock -> Mock) (a : MockAPI) : MockAPI :=
  {| t := t a; filteredHeaders := filteredHeaders a;
     filteredParams := filteredParams a; m := f (m a) |}.

(** [m.WithRequest(req, resp)]. *)
Definition WithRequest (req : MockRequest) (resp : Response) (a : MockAPI)
    : MockAPICall * MockAPI :=
  let '(i, mk) :=
    On "ServeHTTP"
       [VString (method req); VString (path req); VStrMap (headers req);
        VStrMap (queryParams req); body req] (m a) in
  ({| c := i |}, with_mock (fun _ => Call_Return [RetMockResponse resp] i mk) a).

(** [m.DefaultHandler(response)]: [response] keeps its unnamed function
    type when it is stored as the return argument. *)
Definition DefaultHandler (response : Response) (a : MockAPI) : MockAPICall * MockAPI :=
  let '(i, mk) :=
    On "ServeHTTP" [VAnythingOfType "string"; VAnythingOfType "string"; Anything] (m a) in
  ({| c := i |}, with_mock (fun _ => Call_Times 0 i (Call_Return [RetFunc response] i mk)) a).

Definition WithNoResponseBody (req : MockRequest) (status : Z) : MockAPI -> MockAPICall * MockAPI :=
  WithRequest req (NoResponseBody status).

Definition WithJSONReply (req : MockRequest) (status : Z) (rep : option reply)
    : MockAPI -> MockAPICall * MockAPI :=
  WithRequest req (JSONReply status rep).

Definition WithTxtReply (req : MockRequest) (status : Z) (rep : string)
    : MockAPI -> MockAPICall * MockAPI :=
  WithRequest req (TxtReply status rep).

Definition WithStreamingReply (req : MockRequest) (status : Z) (rep : option Reader)
    : MockAPI -> MockAPICall * MockAPI :=
  WithRequest req (StreamingReply status rep).

(** The wrappers of [MockAPICall]. *)
Definition Maybe (h : MockAPICall) : MockAPI -> MockAPI := with_mock (Call_Maybe (c h)).
Definition Once (h : MockAPICall) : MockAPI -> MockAPI := with_mock (Call_Once (c h)).
Definition Times (h : MockAPICall) (i : Z) : MockAPI -> MockAPI := with_mock (Call_Times i (c h)).
Definition Twice (h : MockAPICall) : MockAPI -> MockAPI := with_mock (Call_Twice (c h)).
Definition WaitUntil (h : MockAPICall) (w : chan) : MockAPI -> MockAPI :=
  with_mock (Call_WaitUntil w (c h)).

(** [enc.Encode(reply)] on an encoder over the sink: nothing is written when
    marshalling fails, otherwise the encoding followed by a newline. *)
Definition Encode (v : reply) : M (option error) :=
  match json_Marshal v with
  | inl b => Write (b ++ [newline]) ;; ret None
  | inr e => ret (Some e)
  end.

(** [io.Copy(w, reply)]: what was read before the error is written. *)
Definition Copy (rd : Reader) : M (option error) :=
  match rd.1 with
  | [] => ret rd.2
  | data => Write data ;; ret rd.2
  end.

(** Running a response closure, [replyFn(w, r)].  The closures read [m.t]
    when they run.  (The [fmt.Printf] of [WithJSONReply] goes to standard
    output and is left out.) *)
Definition replyFn (f : Response) (r : Request) : M unit :=
  match f with
  | NoResponseBody status => WriteHeader status
  | JSONReply status rep =>
      WriteHeader status ;;
      match rep with
      | None => ret tt
      | Some v =>
          err <- Encode v ;;
          fun w =>
            match t (api w) with
            | Some _ => require_NoError (t (api w)) err w
            | None => Panic (PanicErr err) w
            end
      end
  | TxtReply status rep =>
      WriteHeader status ;; Write (String.list_byte_of_string rep)
  | StreamingReply status rep =>
      WriteHeader status ;;
      match rep with
      | None => ret tt
      | Some rd => err <- Copy rd ;; fun w => checkError (t (api w)) err w
      end
  | UserFunc script => fun w => Ok tt (set_sink (sink w ++ script r) w)
  end.

(** The body recorded for a request (lines 235-247 of [ServeHTTP]). *)
Definition read_body (r : Request) : Value :=
  match r_Body r with
  | None => VNil
  | Some (bodyBytes, err) =>
      if bool_decide (err = None) && bool_decide (0 < length bodyBytes)%nat then
        match json_Unmarshal bodyBytes with
        | (bodyMap, Some _) => VObjMap bodyMap
        | (_, None) => VBytes (Some bodyBytes)
        end
      else VNil
  end.

(** One round of the loop over [r.Header] (and of the one over
    [r.URL.Query()], which differs in the filter set and the message). *)
Definition collect_step (filtered : gset string) (msg : string)
    (acc : option (gmap string string)) (entry : string * list string)
    : M (option (gmap string string)) :=
  if bool_decide (entry.1 ∈ filtered) then ret acc
  else
    match entry.2 with
    | [] => panic PanicIndex                            (* values[0] *)
    | v0 :: _ =>
        (fun w => Errorf (t (api w)) (MsgText msg) w) ;;
        ret (Some (<[entry.1 := v0]> (default ∅ acc)))
    end.

Fixpoint collect (filtered : gset string) (msg : string)
    (entries : list (string * list string)) (acc : option (gmap string string))
    : M (option (gmap string string)) :=
  match entries with
  | [] => ret acc
  | entry :: rest =>
      acc' <- collect_step filtered msg acc entry ;;
      collect filtered msg rest acc'
  end.

(** The loops of [ServeHTTP] over [r.Header] and [r.URL.Query()]. *)
Definition collect_headers (r : Request) : M (option (gmap string string)) := fun w =>
  collect (filteredHeaders (api w)) "multi-value header was unexpected"
          (map_to_list (r_Header r)) None w.

Definition collect_params (r : Request) : M (option (gmap string string)) := fun w =>
  collect (filteredParams (api w)) "multi-value query param was unexpected"
          (map_to_list (r_Query r)) None w.

(** Lines 235-271 of [ServeHTTP]: the five arguments handed to the mock. *)
Definition normalize (r : Request) : M (list Value) :=
  let body0 := read_body r in
  headers0 <- collect_headers r ;;
  params <- collect_params r ;;
  ret [VString (r_Method r); VString (r_Path r); VStrMap headers0; VStrMap params; body0].

(** Lines 275-278 of [ServeHTTP]: the type assertion [ret.Get(0).(MockResponse)]
    and the call of the response. *)
Definition respond (r : Request) (ret0 : list RetValue) : M unit :=
  v <- Get ret0 0 ;;
  match v with
  | RetMockResponse f => replyFn f r
  | RetFunc _ => ret tt
  end.

(** Lines 273-279 of [ServeHTTP]. *)
Definition dispatch (r : Request) (args : list Value) : M unit :=
  ret0 <- Called args ;;
  respond r ret0.

(** [m.ServeHTTP(w, r)]. *)
Definition ServeHTTP (r : Request) : M unit :=
  args <- normalize r ;;
  dispatch r args.

(** [m.Close()], after the server has been stopped. *)
Definition Close : M unit := fun w =>
  (Mock_AssertExpectations (t (api w)) ;; ret tt) w.

(** [m.AssertExpectations(t)]. *)
Definition AssertExpectations (t0 : option TestingT) : M unit :=
  match t0 with
  | None => ret tt
  | Some _ => Mock_AssertExpectations t0 ;; ret tt
  end.

(** The state an outcome carries: the final one, or the one the handler is
    suspended in. *)
Definition last_world {A} (x : Res A) : World :=
  match x with
  | Ok _ w | Panic _ w | Goexit w | Blocked _ w _ => w
  end.

(** The arguments an expectation for [req] is registered with. *)
Definition criteria (req : MockRequest) : list Value :=
  [VString (method req); VString (path req); VStrMap (headers req);
   VStrMap (queryParams req); body req].

(** The mock after [n] calls with [args] have been counted against the
    expectation [i]. *)
Definition served (n i : nat) (args : list Value) (mk : Mock) : Mock :=
  Nat.iter n (record_call i "ServeHTTP" args) mk.

(** The call count of the expectation behind a handle. *)
Definition callCount (a : MockAPI) (h : MockAPICall) : option Z :=
  totalCalls <$> ExpectedCalls (m a) !! c h.

(** Is the expectation [i] of [mk] met? *)
Definition expectation_met (mk : Mock) (i : nat) : option (option bool) :=
  checkExpectation mk <$> ExpectedCalls mk !! i.

End MockAPI.

Arguments Ok {jobject reply A} a w.
Arguments Panic {jobject reply A} v w.
Arguments Goexit {jobject reply A} w.
Arguments Blocked {jobject reply A} ch w k.

(** ** Sample data *)

(** The bytes of [{"a":1}] and of [not-json]. *)
Definition body_object : list byte :=
  [Corelib.Init.Byte.x7b; Corelib.Init.Byte.x22; Corelib.Init.Byte.x61; Corelib.Init.Byte.x22;
   Corelib.Init.Byte.x3a; Corelib.Init.Byte.x31; Corelib.Init.Byte.x7d].
Definition body_text : list byte := String.list_byte_of_string "not-json".

(** Decoded objects whose members are integers, and a decoder that agrees
    with [json.Unmarshal] on the two sample bodies. *)
Definition sample_object : Type := gmap string Z.
Definition sample_Unmarshal (data : list byte) : option sample_object * option error :=
  if bool_decide (data = body_object) then (Some {[ "a"%string := 1 ]}, None)
  else (None, Some "invalid character"%string).

(** Replies are encodable objects or a value [json.Marshal] rejects (a
    channel, say). *)
Inductive sample_reply :=
| Encodable (o : sample_object) (encoding : list byte)
| Unsupported.

Definition sample_Marshal (v : sample_reply) : list byte + error :=
  match v with
  | Encodable _ encoding => inl encoding
  | Unsupported => inr "json: unsupported type"%string
  end.

Definition sample_API : Type := @MockAPI sample_object sample_reply.
Definition sample_World : Type := @World sample_object sample_reply.

Definition start (a : sample_API) : sample_World :=
  {| api := a; log := []; sink := [] |}.

Definition get_x : Request :=
  {| r_Method := "GET"; r_Path := "/x"; r_Header := ∅; r_Query := ∅; r_Body := None |}.

Definition get_x_with (hdrs : gmap string (list string)) (b : option (list byte)) : Request :=
  {| r_Method := "GET"; r_Path := "/x"; r_Header := hdrs; r_Query := ∅;
     r_Body := (fun x => (x, None)) <$> b |}.

Definition reporter : TestingT := 7%nat.
Definition gate : chan := 5%nat.

Definition fresh : sample_API := NewMockAPI (Some reporter).

(** What [get_x] is normalised to. *)
Definition plain_args : list (@Value sample_object) :=
  [VString "GET"; VString "/x"; VStrMap None; VStrMap None; VNil].

Definition serve (r : Request) (w : sample_World) : Res unit :=
  ServeHTTP sample_Unmarshal sample_Marshal r w.

(** Two expectations for [GET /x], each limited to one call. *)
Definition twice_once : sample_API :=
  let reg1 := WithRequest (NewMockRequest "GET" "/x") (TxtReply 200 "first") fresh in
  let reg2 := WithRequest (NewMockRequest "GET" "/x") (TxtReply 200 "second")
                (Times reg1.1 1 reg1.2) in
  Times reg2.1 1 reg2.2.

(** An expectation for [GET /x] held back by a gate. *)
Definition gated : sample_API :=
  let reg := WithRequest (NewMockRequest "GET" "/x") (TxtReply 200 "late") fresh in
  WaitUntil reg.1 gate reg.2.

(** An expectation for [GET /x] with the default cardinality, and one that
    is optional and limited to two calls. *)
Definition by_default : sample_API :=
  (WithRequest (NewMockRequest "GET" "/x") (NoResponseBody 204) fresh).2.


(** A registry that holds the default handler only. *)
Definition fallback_only : sample_API :=
  (DefaultHandler (UserFunc (fun _ => [SWriteHeader 200])) fresh).2.

(** An expectation for a request whose body is the object [{"a":1}]. *)
Definition expects_object : sample_API :=
  (WithRequest (WithBody (VObjMap (Some {[ "a"%string := 1 ]})) (NewMockRequest "GET" "/x"))
               (NoResponseBody 204) fresh).2.

(** An expectation for a request with one single-valued header. *)
Definition expects_accept : sample_API :=
  (WithRequest (WithHeaders (Some {[ "Accept"%string := "text/plain"%string ]})
                            (NewMockRequest "GET" "/x"))
               (NoResponseBody 204) fresh).2.

Definition agent_header : gmap string (list string) :=
  {[ "User-Agent"%string := ["curl"%string; "libcurl"%string] ]}.

Definition accept_header : gmap string (list string) :=
  {[ "Accept"%string := ["text/plain"%string] ]}.

(** An API that filters [User-Agent], with an expectation that names no
    header. *)
Definition filtering : sample_API :=
  (WithRequest (NewMockRequest "GET" "/x") (NoResponseBody 204)
               (SetFilteredHeaders ["User-Agent"%string] fresh)).2.

(** A request with two headers, one of them with two values. *)
Definition two_headers : gmap string (list string) :=
  {[ "Accept"%string := ["text/plain"%string; "text/html"%string];
     "User-Agent"%string := ["curl"%string] ]}.

(** What [get_x_with two_headers None] is normalised to when [User-Agent]
    is filtered. *)
Definition accept_args : list (@Value sample_object) :=
  [VString "GET"; VString "/x";
   VStrMap (Some {[ "Accept"%string := "text/plain"%string ]}); VStrMap None; VNil].

(** A header with no value at all. *)
Definition empty_header : gmap string (list string) := {[ "X-Empty"%string := [] ]}.

Definition get_x_query (q : gmap string (list string)) : Request :=
  {| r_Method := "GET"; r_Path := "/x"; r_Header := ∅; r_Query := q; r_Body := None |}.

Definition token_query : gmap string (list string) :=
  {[ "token"%string := ["abc"%string; "def"%string] ]}.

(** An API that filters the query parameter [token]. *)
Definition filtering_params : sample_API := SetFilteredQueryParams ["token"%string] fresh.


(** An API without a reporter, with one expectation. *)
Definition unreported : sample_API :=
  (WithRequest (NewMockRequest "GET" "/x") (NoResponseBody 204) (NewMockAPI None)).2.

(** An expectation criterion that accepts any body. *)
Definition any_body : @MockRequest sample_object :=
  WithBody Anything (NewMockRequest "GET" "/x").

Definition txt_api : sample_API :=
  (WithTxtReply (NewMockRequest "GET" "/x") 200 "hello" fresh).2.

(** * Properties *)

Section Properties.

Context {jobject : Type} `{!EqDecision jobject} {reply : Type}.
Variable json_Unmarshal : list byte -> option jobject * option error.
Variable json_Marshal : reply -> list byte + error.

Local Abbreviation World := (@World jobject reply).
Local Abbreviation MockAPI := (@MockAPI jobject reply).
Local Abbreviation M := (@M jobject reply).
Local Abbreviation Value := (@Value jobject).
Local Abbreviation Call := (@Call jobject reply).
Local Abbreviation Mock := (@Mock jobject reply).
Local Abbreviation Response := (@Response reply).

(** ** The outcome monad *)

Lemma bind_Ok {A B} (x : M A) (f : A -> M B) (w w1 : World) (a : A) :
  x w = Ok a w1 -> bind x f w = f a w1.
Proof. unfold bind. intros ->. reflexivity. Qed.

Lemma bind_Ok_inv {A B} (x : M A) (f : A -> M B) (w w2 : World) (b : B) :
  bind x f w = Ok b w2 -> exists a w1, x w = Ok a w1 /\ f a w1 = Ok b w2.
Proof.
  unfold bind. destruct (x w) as [a w1| | |] eqn:E; simpl; try discriminate.
  intros H. exists a, w1. auto.
Qed.

(** ** The loops over the headers and the query *)

Lemma collect_step_Ok_inv F msg acc entry (w w1 : World) res :
  collect_step F msg acc entry w = Ok res w1 ->
  api w1 = api w /\ sink w1 = sink w /\
  ((res = acc /\ w1 = w /\ entry.1 ∈ F) \/
   ((entry.1 ∉ F) /\ (exists v0 vs rep, entry.2 = v0 :: vs /\ t (api w) = Some rep /\
      res = Some (<[entry.1 := v0]> (default ∅ acc)) /\
      w1 = set_log (log w ++ [(rep, TErrorf (MsgText msg))]) w))).
Proof.
  unfold collect_step. case_bool_decide as HF.
  - intros [= <- <-]. split; [done|]. split; [done|]. left. done.
  - destruct (entry.2) as [|v0 vs] eqn:E2; [discriminate|].
    unfold bind, Errorf. destruct (t (api w)) as [rep|] eqn:Et; simpl; [|discriminate].
    intros [= <- <-]. split; [done|]. split; [done|].
    right. split; [done|]. exists v0, vs, rep. auto.
Qed.

Lemma collect_Ok_frame F msg entries acc (w w1 : World) res :
  collect F msg entries acc w = Ok res w1 -> api w1 = api w /\ sink w1 = sink w.
Proof.
  revert acc w. induction entries as [|e rest IH]; simpl; intros acc w.
  - intros [= <- <-]. auto.
  - intros H. apply bind_Ok_inv in H as (acc' & w' & Hs & Hr).
    apply collect_step_Ok_inv in Hs as (Ha & Hk & _).
    apply IH in Hr as [-> ->]. auto.
Qed.

(** Every key the loop skips is absent from the map it builds. *)
Lemma collect_Ok_filtered F msg entries acc (w w1 : World) res k :
  collect F msg entries acc w = Ok res w1 ->
  k ∈ F -> acc ≫= (.!! k) = None -> res ≫= (.!! k) = None.
Proof.
  revert acc w. induction entries as [|e rest IH]; simpl; intros acc w.
  - intros [= <- <-]. auto.
  - intros H Hk Hacc. apply bind_Ok_inv in H as (acc' & w' & Hs & Hr).
    apply collect_step_Ok_inv in Hs as (_ & _ & [(-> & _ & _)|(Hn & v0 & vs & rep & _ & _ & -> & _)]).
    + eapply IH; eauto.
    + eapply IH; eauto. simpl. rewrite lookup_insert_ne by (intros Heq; apply Hn; by rewrite Heq).
      destruct acc as [acc|]; simpl in *; [done|apply lookup_empty].
Qed.

(** When every key is filtered the loop leaves its accumulator alone, makes
    no report and cannot fail. *)
Lemma collect_all_filtered F msg entries acc (w : World) :
  Forall (fun e => e.1 ∈ F) entries ->
  collect F msg entries acc w = Ok acc w.
Proof.
  induction 1 as [|e rest He _ IH]; simpl; [done|].
  unfold bind, collect_step. rewrite bool_decide_eq_true_2 by done. simpl. apply IH.
Qed.

Lemma collect_skip F msg k vs entries acc (w : World) :
  k ∈ F -> collect F msg ((k, vs) :: entries) acc w = collect F msg entries acc w.
Proof.
  intros Hk. simpl. unfold bind, collect_step. simpl.
  by rewrite bool_decide_eq_true_2.
Qed.

(** Two rounds over distinct keys can be exchanged when both succeed. *)
Lemma collect_step_swap F msg acc x y (w w2 : World) res :
  x.1 <> y.1 ->
  bind (collect_step F msg acc x) (fun acc1 => collect_step F msg acc1 y) w = Ok res w2 ->
  bind (collect_step F msg acc y) (fun acc1 => collect_step F msg acc1 x) w = Ok res w2.
Proof.
  intros Hne. unfold collect_step.
  destruct (bool_decide (x.1 ∈ F)), (bool_decide (y.1 ∈ F));
    destruct (x.2) as [|vx ?], (y.2) as [|vy ?];
    unfold bind, Errorf, ret, panic; cbn;
    destruct (t (api w)) as [rep|] eqn:Et; cbn; rewrite ?Et; cbn; try done.
  intros [= <- <-]. f_equal. f_equal. by apply insert_insert_ne.
Qed.

(** The order in which a Go map is ranged over does not show in a successful
    outcome of the loop. *)
Lemma collect_perm F msg (l l' : list (string * list string)) :
  l ≡ₚ l' -> NoDup l.*1 ->
  forall acc (w w1 : World) res,
    collect F msg l acc w = Ok res w1 -> collect F msg l' acc w = Ok res w1.
Proof.
  induction 1 as [|x l l' Hp IH|x y l|l l' l'' Hp1 IH1 Hp2 IH2]; intros Hnd acc w w1 res.
  - done.
  - simpl. intros H. apply bind_Ok_inv in H as (acc' & w' & Hs & Hr).
    rewrite (bind_Ok _ _ _ _ _ Hs). apply IH; [|done].
    by apply NoDup_cons_1_2 in Hnd.
  - simpl in *. intros H.
    assert (Hne : x.1 <> y.1).
    { apply NoDup_cons in Hnd as [Hy _]. intros Heq. apply Hy. rewrite Heq. left. }
    apply bind_Ok_inv in H as (a1 & wa & Hs1 & H).
    apply bind_Ok_inv in H as (a2 & wb & Hs2 & Hr).
    assert (Hxy : bind (collect_step F msg acc y)
                       (fun acc1 => collect_step F msg acc1 x) w = Ok a2 wb).
    { unfold bind at 1. by rewrite Hs1. }
    apply collect_step_swap in Hxy; [|done].
    apply bind_Ok_inv in Hxy as (a1' & wa' & Hs1' & Hs2').
    rewrite (bind_Ok _ _ _ _ _ Hs1'), (bind_Ok _ _ _ _ _ Hs2'). exact Hr.
  - intros H. apply IH2; [by rewrite <- Hp1|by apply IH1].
Qed.

(** A filtered header leaves no trace in a successful outcome of the loop,
    whatever its values. *)
Lemma collect_headers_filtered r hdr values (w w1 : World) res :
  hdr ∈ filteredHeaders (api w) ->
  collect_headers r w = Ok res w1 ->
  collect_headers (with_header hdr values r) w = Ok res w1.
Proof.
  unfold collect_headers. simpl. intros Hf H.
  assert (Hd : collect (filteredHeaders (api w)) "multi-value header was unexpected"
                 (map_to_list (delete hdr (r_Header r))) None w = Ok res w1).
  { destruct (r_Header r !! hdr) as [vs0|] eqn:El.
    - rewrite <- (collect_skip _ _ hdr vs0) by done.
      eapply collect_perm; [| |exact H].
      + symmetry. by apply map_to_list_delete.
      + apply NoDup_fst_map_to_list.
    - by rewrite delete_id. }
  eapply collect_perm.
  - symmetry. rewrite <- insert_delete_eq. apply map_to_list_insert, lookup_delete_eq.
  - simpl. constructor; [|apply NoDup_fst_map_to_list].
    rewrite list_elem_of_fmap. intros [[k v] [Hk Hin]]. simpl in Hk. subst k.
    apply elem_of_map_to_list in Hin. by rewrite lookup_delete_eq in Hin.
  - by rewrite collect_skip.
Qed.

(** With a reporter attached, a successful loop has made one report for
    every key it kept, whatever the number of values under that key. *)
Lemma collect_reports F msg entries acc (w w1 : World) res rep :
  t (api w) = Some rep ->
  collect F msg entries acc w = Ok res w1 ->
  log w1 = log w ++
    replicate (length (filter (fun e => e.1 ∉ F) entries)) (rep, TErrorf (MsgText msg)).
Proof.
  intros Ht. revert acc w Ht.
  induction entries as [|e rest IH]; simpl; intros acc w Ht.
  - intros [= <- <-]. by rewrite app_nil_r.
  - intros H. apply bind_Ok_inv in H as (acc' & w' & Hs & Hr).
    apply collect_step_Ok_inv in Hs
      as (Ha & _ & [(_ & -> & Hin)|(Hn & v0 & vs & rep' & _ & Ht' & _ & ->)]).
    + rewrite filter_cons_False by (intros Hc; by apply Hc).
      exact (IH _ _ Ht Hr).
    + rewrite filter_cons_True by done.
      rewrite (IH _ (set_log _ w) Ht Hr). simpl. rewrite <- app_assoc. simpl.
      by replace rep' with rep by congruence.
Qed.

(** ** The recorded body *)

Lemma read_body_empty (r : Request) :
  r_Body r = None \/ (exists err, r_Body r = Some ([], err)) ->
  read_body json_Unmarshal r = VNil.
Proof.
  unfold read_body. intros [->|[err ->]]; [done|].
  by rewrite andb_false_r.
Qed.

(** A body that decodes is recorded as the raw bytes; one that does not
    decode is recorded as the map [json.Unmarshal] left behind. *)
Lemma read_body_nonempty (r : Request) (b : list byte) :
  r_Body r = Some (b, None) -> b <> [] ->
  read_body json_Unmarshal r =
    match json_Unmarshal b with
    | (bodyMap, Some _) => VObjMap bodyMap
    | (_, None) => VBytes (Some b)
    end.
Proof.
  unfold read_body. intros -> Hb. destruct b; [done|]. reflexivity.
Qed.

(** ** The default handler *)

(** The three matchers of [DefaultHandler] never agree with the five
    arguments [ServeHTTP] hands to the mock. *)
Lemma DefaultHandler_arity (mth pth : string) (hs ps : option (gmap string string))
    (b : Value) :
  exists n, Diff [VAnythingOfType "string"; VAnythingOfType "string"; Anything]
                 [VString mth; VString pth; VStrMap hs; VStrMap ps; b] = Some (S n).
Proof.
  unfold Diff. simpl. eexists. reflexivity.
Qed.

(** ** What [normalize] returns *)

Lemma normalize_Ok_inv r (w w1 : World) args :
  normalize json_Unmarshal r w = Ok args w1 ->
  exists hs ps w',
    collect_headers r w = Ok hs w' /\ collect_params r w' = Ok ps w1 /\
    args = [VString (r_Method r); VString (r_Path r); VStrMap hs; VStrMap ps;
            read_body json_Unmarshal r] /\
    api w1 = api w /\ sink w1 = sink w.
Proof.
  unfold normalize. intros H.
  apply bind_Ok_inv in H as (hs & w' & Hh & H).
  apply bind_Ok_inv in H as (ps & w'' & Hp & H).
  injection H as <- <-. exists hs, ps, w'. repeat split; try done.
  - apply collect_Ok_frame in Hh as [Hh _], Hp as [Hp _]. congruence.
  - apply collect_Ok_frame in Hh as [_ Hh], Hp as [_ Hp]. congruence.
Qed.

Lemma ServeHTTP_normalized r (w w1 : World) args :
  normalize json_Unmarshal r w = Ok args w1 ->
  ServeHTTP json_Unmarshal json_Marshal r w = dispatch json_Marshal r args w1.
Proof. intros H. unfold ServeHTTP. by rewrite (bind_Ok _ _ _ _ _ H). Qed.

(** C8: a header whose name is in the filtered set is absent from the
    header map handed to the mock; the five arguments are the same whatever
    values that header carries (so an expectation matches with or without it);
    and the header map is nil when every header of the request is filtered. *)
Theorem filtered_header_ignored (r : Request) (w : World) (hdr : string) :
  hdr ∈ filteredHeaders (api w) ->
  (forall args w1,
     normalize json_Unmarshal r w = Ok args w1 ->
     exists hs,
       args !! 2%nat = Some (VStrMap hs) /\
       hs ≫= (.!! hdr) = None /\
       forall values,
         normalize json_Unmarshal (with_header hdr values r) w = Ok args w1) /\
  (dom (r_Header r) ⊆ filteredHeaders (api w) -> collect_headers r w = Ok None w).
Proof.
  intros Hf. split.
  - intros args w1 Hn.
    apply normalize_Ok_inv in Hn as (hs & ps & w' & Hh & Hp & -> & _ & _).
    exists hs. split; [reflexivity|]. split.
    + unfold collect_headers in Hh. eapply collect_Ok_filtered; eauto.
    + intros values. unfold normalize.
      rewrite (bind_Ok _ _ _ _ _ (collect_headers_filtered _ _ values _ _ _ Hf Hh)).
      change (@collect_params jobject reply (with_header hdr values r))
        with (@collect_params jobject reply r).
      rewrite (bind_Ok _ _ _ _ _ Hp). reflexivity.
  - intros Hd. unfold collect_headers. apply collect_all_filtered.
    apply Forall_forall. intros [k vs] Hin. simpl.
    apply Hd, elem_of_dom. apply elem_of_map_to_list in Hin. eauto.
Qed.

(** ** Dispatch *)

Lemma dispatch_NotFound r args (w : World) expectedCall :
  findExpectedCall (m (api w)) "ServeHTTP" args = Some (NotFound expectedCall) ->
  let msg :=
    match expectedCall with
    | Some j => MsgCalledOver (default 0 (totalCalls <$> ExpectedCalls (m (api w)) !! j))
                              "ServeHTTP" args
    | None => MsgUnexpectedCall "ServeHTTP" args
    end in
  dispatch json_Marshal r args w =
    match test (m (api w)) with
    | Some rep => Goexit (set_log (log w ++ [(rep, TErrorf msg); (rep, TFailNow)]) w)
    | None => Panic (PanicMsg msg) w
    end.
Proof.
  intros H. unfold dispatch, bind, Called, MethodCalled. rewrite H.
  destruct expectedCall as [j|]; unfold fail; destruct (test (m (api w))) as [rep|];
    simpl; try reflexivity; unfold set_log; simpl; by rewrite <- app_assoc.
Qed.

Lemma dispatch_Found r args (w : World) i k :
  findExpectedCall (m (api w)) "ServeHTTP" args = Some (Found i) ->
  ExpectedCalls (m (api w)) !! i = Some k ->
  let w1 := set_mock (record_call i "ServeHTTP" args (m (api w))) w in
  ExpectedCalls (m (api w1)) !! i = Some (consume k) /\
  dispatch json_Marshal r args w =
    match WaitFor k with
    | Some ch => Blocked ch w1 (bind (returnArgs i) (respond json_Marshal r))
    | None => respond json_Marshal r (ReturnArguments k) w1
    end.
Proof.
  intros H Hk w1.
  assert (Hk1 : ExpectedCalls (m (api w1)) !! i = Some (consume k)).
  { simpl. by rewrite list_lookup_alter_eq, Hk. }
  split; [done|].
  unfold dispatch, bind, Called, MethodCalled. rewrite H. cbv zeta. fold w1. rewrite Hk1.
  change (Some (consume k) ≫= WaitFor) with (WaitFor k).
  destruct (WaitFor k) as [ch|]; [reflexivity|].
  unfold returnArgs. rewrite Hk1. reflexivity.
Qed.

(** ** Responses *)

(** C6 (amended): a JSON reply writes the status code first.  A nil reply
    ends the response there.  A non-nil reply is then marshalled: when that
    succeeds its encoding is written to the body, and with a reporter
    attached the response ends normally; when it fails nothing more is
    written, the failure is reported through the reporter ([Errorf], then
    [FailNow]) if one is attached and raised as a panic carrying the error
    otherwise. *)
Theorem JSONReply_status_then_body (status : Z) (rep : option reply) (r : Request)
    (w : World) :
  let res := replyFn json_Marshal (JSONReply status rep) r w in
  match rep with
  | None => res = Ok tt (set_sink (sink w ++ [SWriteHeader status]) w)
  | Some v =>
      match json_Marshal v with
      | inl b =>
          sink (last_world res) = sink w ++ [SWriteHeader status; SWrite (b ++ [newline])] /\
          log (last_world res) = log w /\
          match t (api w) with
          | Some _ => res = Ok tt (last_world res)
          | None => True
          end
      | inr e =>
          sink (last_world res) = sink w ++ [SWriteHeader status] /\
          match t (api w) with
          | Some reporter0 =>
              res = Goexit (last_world res) /\
              log (last_world res) =
                log w ++ [(reporter0, TErrorf (MsgNoError e)); (reporter0, TFailNow)]
          | None => res = Panic (PanicErr (Some e)) (last_world res)
          end
      end
  end.
Proof.
  destruct rep as [v|]; simpl; [|reflexivity].
  unfold bind, WriteHeader, Encode; simpl.
  destruct (json_Marshal v) as [b|e]; simpl.
  - destruct (t (api w)) as [rep|] eqn:Et; simpl; rewrite <- app_assoc; simpl.
    + repeat split; reflexivity.
    + repeat split; reflexivity.
  - destruct (t (api w)) as [rep|] eqn:Et; simpl.
    + repeat split; try reflexivity. by rewrite <- app_assoc.
    + split; reflexivity.
Qed.

(** Without a reporter the closure of [WithJSONReply] panics after a
    successful encoding as well: [panic(err)] is reached with a nil [err]. *)
Lemma JSONReply_no_reporter_panics (status : Z) (v : reply) (b : list byte)
    (r : Request) (w : World) :
  t (api w) = None -> json_Marshal v = inl b ->
  replyFn json_Marshal (JSONReply status (Some v)) r w =
  Panic (PanicErr None)
        (set_sink (sink w ++ [SWriteHeader status; SWrite (b ++ [newline])]) w).
Proof.
  intros Ht Hm. simpl. unfold bind, WriteHeader, Encode. simpl. rewrite Hm. simpl.
  rewrite Ht. unfold set_sink. simpl. by rewrite <- app_assoc.
Qed.

(** A return argument of the unnamed function type fails the type assertion
    of [ServeHTTP]: the handler returns without running it. *)
Lemma respond_unnamed_func (f : Response) (r : Request) (w : World) :
  respond json_Marshal r [RetFunc f] w = Ok tt w.
Proof. reflexivity. Qed.

(** ** Selection among the registered expectations *)

Lemma findExpectedCall_from_app i (xs ys : list Call) methodName (args : list Value) e e' :
  findExpectedCall_from i xs methodName args e = Some (NotFound e') ->
  findExpectedCall_from i (xs ++ ys) methodName args e =
  findExpectedCall_from (i + length xs) ys methodName args e'.
Proof.
  revert i e. induction xs as [|x xs IH]; simpl; intros i e.
  - intros [= ->]. by rewrite Nat.add_0_r.
  - replace (i + S (length xs))%nat with (S i + length xs)%nat by lia.
    case_bool_decide; [|by apply IH].
    destruct (Diff (Arguments x) args) as [[|n]|]; [|by apply IH|done].
    case_bool_decide; [done|by apply IH].
Qed.

Lemma findExpectedCall_from_app_gen i (xs ys : list Call) methodName (args : list Value) e :
  findExpectedCall_from i (xs ++ ys) methodName args e =
  match findExpectedCall_from i xs methodName args e with
  | Some (NotFound e') => findExpectedCall_from (i + length xs) ys methodName args e'
  | other => other
  end.
Proof.
  revert i e. induction xs as [|x xs IH]; simpl; intros i e.
  - by rewrite Nat.add_0_r.
  - replace (i + S (length xs))%nat with (S i + length xs)%nat by lia.
    case_bool_decide; [|by apply IH].
    destruct (Diff (Arguments x) args) as [[|n]|]; [|by apply IH|done].
    case_bool_decide; [done|by apply IH].
Qed.

(** Registering the default handler changes nothing in the selection for
    the arguments of any request. *)
Lemma DefaultHandler_never_selected (a : MockAPI) (resp : Response) (r : Request)
    (w w1 : World) (args : list Value) :
  normalize json_Unmarshal r w = Ok args w1 ->
  findExpectedCall (m (DefaultHandler resp a).2) "ServeHTTP" args =
  findExpectedCall (m a) "ServeHTTP" args.
Proof.
  intros Hn. apply normalize_Ok_inv in Hn as (hs & ps & _ & _ & _ & -> & _ & _).
  unfold findExpectedCall, DefaultHandler, On, Call_Times, Call_Return, update_call.
  cbn [snd m with_mock ExpectedCalls].
  rewrite <- (Nat.add_0_r (length _)), !alter_app_r, findExpectedCall_from_app_gen.
  destruct (findExpectedCall_from 0 _ _ _ _) as [[j|e]|]; reflexivity.
Qed.

(** What a registration through [WithRequest] leaves in the mock. *)
Lemma WithRequest_calls (req : MockRequest) (resp : Response) (a : MockAPI) :
  c (WithRequest req resp a).1 = length (ExpectedCalls (m a)) /\
  ExpectedCalls (m (WithRequest req resp a).2) =
    ExpectedCalls (m a) ++
      [{| Method := "ServeHTTP"; Arguments := criteria req;
          ReturnArguments := [RetMockResponse resp]; Repeatability := 0;
          totalCalls := 0; optional := false; WaitFor := None |}] /\
  Calls (m (WithRequest req resp a).2) = Calls (m a) /\
  test (m (WithRequest req resp a).2) = test (m a) /\
  t (WithRequest req resp a).2 = t a.
Proof.
  unfold WithRequest, On, Call_Return, update_call; simpl. repeat split.
  rewrite <- (Nat.add_0_r (length _)), alter_app_r. reflexivity.
Qed.

Lemma Times_calls (h : MockAPICall) (n : Z) (a : MockAPI) :
  ExpectedCalls (m (Times h n a)) =
  alter (fun k : Call =>
           {| Method := Method k; Arguments := Arguments k;
              ReturnArguments := ReturnArguments k; Repeatability := n;
              totalCalls := totalCalls k; optional := optional k; WaitFor := WaitFor k |})
        (c h) (ExpectedCalls (m a)).
Proof. reflexivity. Qed.

(** The same, followed by [Times(n)] on the handle. *)
Lemma WithRequest_Times_calls (req : MockRequest) (resp : Response) (n : Z) (a : MockAPI) :
  c (WithRequest req resp a).1 = length (ExpectedCalls (m a)) /\
  ExpectedCalls (m (Times (WithRequest req resp a).1 n (WithRequest req resp a).2)) =
    ExpectedCalls (m a) ++
      [{| Method := "ServeHTTP"; Arguments := criteria req;
          ReturnArguments := [RetMockResponse resp]; Repeatability := n;
          totalCalls := 0; optional := false; WaitFor := None |}].
Proof.
  destruct (WithRequest_calls req resp a) as (Hc & He & _).
  split; [exact Hc|]. rewrite Times_calls, He, Hc.
  rewrite <- (Nat.add_0_r (length _)), alter_app_r. reflexivity.
Qed.

(** A response leaves the registry alone. *)
Lemma replyFn_api (f : Response) (r : Request) (w : World) :
  api (last_world (replyFn json_Marshal f r w)) = api w.
Proof.
  destruct f as [status|status [v|]|status rep|status [[data err]|]|script]; simpl;
    try reflexivity.
  - unfold bind, WriteHeader, Encode; simpl.
    destruct (json_Marshal v) as [b|e]; simpl; destruct (t (api w)); reflexivity.
  - unfold bind, WriteHeader, Copy, checkError; simpl.
    destruct data; simpl; destruct (t (api w)); destruct err; reflexivity.
Qed.

(** C4: two expectations registered with the same criteria, each limited to
    one call, are consumed in registration order.  The first request that
    matches the criteria is counted against the first-registered
    expectation and gets its response; the second one is counted against
    the second-registered expectation and gets that one's response. *)
Theorem fifo_consumption (a : MockAPI) (req : MockRequest) (resp1 resp2 : Response)
    (r1 r2 : Request) (args1 args2 : list Value) (w w1 : World) :
  let reg1 := WithRequest req resp1 a in
  let reg2 := WithRequest req resp2 (Times reg1.1 1 reg1.2) in
  findExpectedCall (m a) "ServeHTTP" args1 = Some (NotFound None) ->
  findExpectedCall (m a) "ServeHTTP" args2 = Some (NotFound None) ->
  Diff (criteria req) args1 = Some 0%nat ->
  Diff (criteria req) args2 = Some 0%nat ->
  api w = Times reg2.1 1 reg2.2 ->
  normalize json_Unmarshal r1 w = Ok args1 w1 ->
  exists w2,
    ServeHTTP json_Unmarshal json_Marshal r1 w = replyFn json_Marshal resp1 r1 w2 /\
    callCount (api w2) reg1.1 = Some 1 /\ callCount (api w2) reg2.1 = Some 0 /\
    forall w3 w4,
      api w3 = api w2 ->
      normalize json_Unmarshal r2 w3 = Ok args2 w4 ->
      exists w5,
        ServeHTTP json_Unmarshal json_Marshal r2 w3 = replyFn json_Marshal resp2 r2 w5 /\
        callCount (api w5) reg1.1 = Some 1 /\ callCount (api w5) reg2.1 = Some 1.
Proof.
  intros reg1 reg2 Hpre1 Hpre2 Hd1 Hd2 Hw Hn.
  destruct (WithRequest_Times_calls req resp1 1 a) as [Hc1 He1].
  destruct (WithRequest_Times_calls req resp2 1 (Times reg1.1 1 reg1.2)) as [Hc2 He2].
  subst reg1 reg2. rewrite He1 in Hc2, He2. rewrite <- Hw in He2.
  rewrite length_app in Hc2. change (length [_]) with 1%nat in Hc2.
  unfold findExpectedCall in Hpre1, Hpre2.
  set (E := ExpectedCalls (m a)) in *.
  unfold callCount. rewrite Hc1, Hc2. clear Hc1 Hc2 He1 Hw.
  set (k1 := Build_Call _ _ [RetMockResponse resp1] _ _ _ _) in *.
  set (k2 := Build_Call _ _ [RetMockResponse resp2] _ _ _ _) in *.
  pose proof Hn as Hn'. apply normalize_Ok_inv in Hn' as (_ & _ & _ & _ & _ & _ & Ha1 & _).
  rewrite (ServeHTTP_normalized _ _ _ _ Hn).
  assert (Hf1 : findExpectedCall (m (api w1)) "ServeHTTP" args1 = Some (Found (length E))).
  { unfold findExpectedCall. rewrite Ha1, He2, <- app_assoc.
    rewrite (findExpectedCall_from_app _ _ _ _ _ _ _ Hpre1). simpl.
    rewrite Hd1. reflexivity. }
  assert (Hk1 : ExpectedCalls (m (api w1)) !! length E = Some k1).
  { rewrite Ha1, He2, <- app_assoc. by apply list_lookup_middle. }
  destruct (dispatch_Found r1 _ _ _ _ Hf1 Hk1) as [_ ->]. simpl WaitFor. cbv iota.
  set (w2 := set_mock _ w1).
  assert (He3 : ExpectedCalls (m (api w2)) = E ++ [consume k1; k2]).
  { simpl. rewrite Ha1, He2, <- app_assoc, <- (Nat.add_0_r (length E)), alter_app_r.
    reflexivity. }
  exists w2. split; [reflexivity|].
  split; [rewrite He3; by rewrite list_lookup_middle|].
  split.
  { rewrite He3, lookup_app_r by lia.
    by replace (length E + 1 - length E)%nat with 1%nat by lia. }
  intros w3 w4 Hw3 Hn2.
  pose proof Hn2 as Hn'. apply normalize_Ok_inv in Hn' as (_ & _ & _ & _ & _ & _ & Ha4 & _).
  rewrite (ServeHTTP_normalized _ _ _ _ Hn2).
  assert (He4 : ExpectedCalls (m (api w4)) = E ++ [consume k1; k2]) by congruence.
  assert (Hf2 : findExpectedCall (m (api w4)) "ServeHTTP" args2
                = Some (Found (length E + 1))).
  { unfold findExpectedCall. rewrite He4.
    rewrite (findExpectedCall_from_app _ _ _ _ _ _ _ Hpre2). simpl.
    rewrite Hd2. simpl. by rewrite Nat.add_1_r. }
  assert (Hk2 : ExpectedCalls (m (api w4)) !! (length E + 1)%nat = Some k2).
  { rewrite He4, lookup_app_r by lia.
    by replace (length E + 1 - length E)%nat with 1%nat by lia. }
  destruct (dispatch_Found r2 _ _ _ _ Hf2 Hk2) as [_ ->]. simpl WaitFor. cbv iota.
  set (w5 := set_mock _ w4).
  assert (He5 : ExpectedCalls (m (api w5)) = E ++ [consume k1; consume k2]).
  { simpl. rewrite He4. change [consume k1; k2] with ([consume k1] ++ [k2]).
    rewrite app_assoc.
    replace (length E + 1)%nat with (length (E ++ [consume k1]) + 0)%nat
      by (rewrite length_app; simpl; lia).
    rewrite alter_app_r, <- app_assoc. reflexivity. }
  exists w5. split; [reflexivity|].
  split; [rewrite He5; by rewrite list_lookup_middle|].
  rewrite He5, lookup_app_r by lia.
  by replace (length E + 1 - length E)%nat with 1%nat by lia.
Qed.

(** ** Cardinality *)

Lemma served_Calls n i (args : list Value) (mk : Mock) :
  Calls (served n i args mk) = Calls mk ++ replicate n ("ServeHTTP"%string, args).
Proof.
  induction n as [|n IH].
  - simpl. by rewrite app_nil_r.
  - change (served (S n) i args mk)
      with (record_call i "ServeHTTP" args (served n i args mk)).
    unfold record_call at 1. cbn [Calls]. rewrite IH, <- app_assoc. f_equal.
    change [("ServeHTTP"%string, args)] with (replicate 1 ("ServeHTTP"%string, args)).
    rewrite <- replicate_add. by rewrite Nat.add_1_r.
Qed.

Lemma served_lookup n i (args : list Value) (mk : Mock) :
  ExpectedCalls (served n i args mk) !! i = Nat.iter n consume <$> ExpectedCalls mk !! i.
Proof.
  induction n as [|n IH].
  - simpl. by destruct (ExpectedCalls mk !! i).
  - change (served (S n) i args mk)
      with (record_call i "ServeHTTP" args (served n i args mk)).
    unfold record_call at 1. cbn [ExpectedCalls].
    rewrite list_lookup_alter_eq, IH.
    by destruct (ExpectedCalls mk !! i).
Qed.

(** Counting calls against an unlimited expectation changes its count only. *)
Lemma consume_unlimited n (k : Call) :
  Repeatability k = 0 ->
  Method (Nat.iter n consume k) = Method k /\
  Arguments (Nat.iter n consume k) = Arguments k /\
  optional (Nat.iter n consume k) = optional k /\
  Repeatability (Nat.iter n consume k) = 0 /\
  (n = 0%nat -> totalCalls (Nat.iter n consume k) = totalCalls k).
Proof.
  intros Hr. induction n as [|n (IHm & IHa & IHo & IHr & _)]; simpl; [done|].
  rewrite IHr. repeat split; done.
Qed.



(** ** Requests no expectation matches *)

(** C7 (amended): when the arguments of a request match no registered
    expectation, the failure is reported to the reporter attached to the
    mock ([Errorf] with the unexpected call, then [FailNow], which ends the
    handler), or raised as a panic when there is none; [ServeHTTP] writes
    nothing to the response sink. *)
Theorem unmatched_request_reported (r : Request) (w w1 : World) (args : list Value) :
  normalize json_Unmarshal r w = Ok args w1 ->
  findExpectedCall (m (api w1)) "ServeHTTP" args = Some (NotFound None) ->
  let res := ServeHTTP json_Unmarshal json_Marshal r w in
  sink (last_world res) = sink w /\
  match test (m (api w1)) with
  | Some reporter0 =>
      res = Goexit (last_world res) /\
      log (last_world res) =
        log w1 ++ [(reporter0, TErrorf (MsgUnexpectedCall "ServeHTTP" args));
                   (reporter0, TFailNow)]
  | None => res = Panic (PanicMsg (MsgUnexpectedCall "ServeHTTP" args)) w1
  end.
Proof.
  intros Hn Hf res. subst res.
  rewrite (ServeHTTP_normalized _ _ _ _ Hn), (dispatch_NotFound _ _ _ _ Hf).
  apply normalize_Ok_inv in Hn as (_ & _ & _ & _ & _ & _ & _ & Hs).
  destruct (test (m (api w1))); simpl; auto.
Qed.

(** ** The release gate *)

Lemma WaitUntil_sets_gate (a : MockAPI) (h : MockAPICall) (ch : chan) (k : Call) :
  ExpectedCalls (m a) !! c h = Some k ->
  exists k', ExpectedCalls (m (WaitUntil h ch a)) !! c h = Some k' /\
             WaitFor k' = Some ch /\ ReturnArguments k' = ReturnArguments k.
Proof.
  intros H. eexists. simpl. rewrite list_lookup_alter_eq, H. simpl. eauto.
Qed.

(** C5: when the expectation selected for a request carries a release gate,
    [ServeHTTP] is suspended at the receive on the gate with the call already
    counted and with the sink exactly as it was: neither a status code nor a
    byte has been written.  The response runs only in the continuation, that
    is once the gate has delivered. *)
Theorem gate_holds_response (r : Request) (w w1 : World) (args : list Value)
    (i : nat) (k : Call) (ch : chan) :
  normalize json_Unmarshal r w = Ok args w1 ->
  findExpectedCall (m (api w1)) "ServeHTTP" args = Some (Found i) ->
  ExpectedCalls (m (api w1)) !! i = Some k ->
  WaitFor k = Some ch ->
  exists w2 resume,
    ServeHTTP json_Unmarshal json_Marshal r w = Blocked ch w2 resume /\
    sink w2 = sink w /\
    ExpectedCalls (m (api w2)) !! i = Some (consume k) /\
    totalCalls (consume k) = wrap_int (totalCalls k + 1) /\
    forall w3 f, ReturnArguments <$> ExpectedCalls (m (api w3)) !! i = Some [RetMockResponse f] ->
                 resume w3 = replyFn json_Marshal f r w3.
Proof.
  intros Hn Hf Hk Hg.
  rewrite (ServeHTTP_normalized _ _ _ _ Hn).
  destruct (dispatch_Found r _ _ _ _ Hf Hk) as [Hk1 ->]. rewrite Hg.
  apply normalize_Ok_inv in Hn as (_ & _ & _ & _ & _ & _ & _ & Hs).
  eexists _, _. split; [reflexivity|]. split; [exact Hs|]. split; [exact Hk1|].
  split; [reflexivity|].
  intros w3 f Hr. unfold bind, returnArgs. rewrite Hr. reflexivity.
Qed.

(** ** The explicit assertion entry point *)

(** C10: [AssertExpectations] with a nil [TestingT] returns at once; the
    state is the one it was called in, so nothing has been reported (an
    expectation that was required and never called included) and the
    registry is unchanged. *)
Theorem AssertExpectations_nil (w : World) :
  AssertExpectations None w = Ok tt w.
Proof. reflexivity. Qed.

End Properties.

(** * The handler on sample requests *)

(** C1: the body [{"a":1}] decodes to an object, yet the body recorded for
    the request is the raw byte sequence; the body [not-json] does not
    decode, yet the recorded body is the (nil) map instead of the raw bytes.
    An expectation registered with the decoded object is not matched by the
    request that carries it. *)
Theorem recorded_body_swapped :
  sample_Unmarshal body_object = (Some {[ "a"%string := 1 ]}, None) /\
  read_body sample_Unmarshal (get_x_with ∅ (Some body_object)) = VBytes (Some body_object) /\
  (sample_Unmarshal body_text).2 = Some "invalid character"%string /\
  read_body sample_Unmarshal (get_x_with ∅ (Some body_text)) = VObjMap None /\
  exists w,
    serve (get_x_with ∅ (Some body_object)) (start expects_object) = Goexit w /\
    sink w = [] /\
    log w = [(reporter, TErrorf (MsgUnexpectedCall "ServeHTTP"
                [VString "GET"; VString "/x"; VStrMap None; VStrMap None;
                 VBytes (Some body_object)]));
             (reporter, TFailNow)].
Proof.
  repeat split; try reflexivity.
  eexists. repeat split; vm_compute; reflexivity.
Qed.

(** C2: a request whose only header has a single value is served, and the
    multi-value error is reported all the same. *)
Theorem single_value_reported :
  r_Header (get_x_with accept_header None) = {[ "Accept"%string := ["text/plain"%string] ]} /\
  exists w,
    serve (get_x_with accept_header None) (start expects_accept) = Ok tt w /\
    log w = [(reporter, TErrorf (MsgText "multi-value header was unexpected"))] /\
    sink w = [SWriteHeader 204].
Proof.
  split; [reflexivity|]. eexists. repeat split; vm_compute; reflexivity.
Qed.

(** C3: with the default handler as the only registration, a request is
    reported as an unexpected call and the handler's response function is
    not run: nothing reaches the sink. *)
Theorem default_handler_not_used :
  exists w,
    serve get_x (start fallback_only) = Goexit w /\
    sink w = [] /\
    log w = [(reporter, TErrorf (MsgUnexpectedCall "ServeHTTP" plain_args));
             (reporter, TFailNow)] /\
    callCount (api w) (DefaultHandler (UserFunc (fun _ => [SWriteHeader 200])) fresh).1
      = Some 0.
Proof.
  eexists. repeat split; vm_compute; reflexivity.
Qed.

(** C6, as stated, fails for a nil reply: the status code is written and
    the body stays empty, where the JSON encoding of nil is [null]. *)
Lemma JSONReply_nil_has_no_body :
  exists w,
    replyFn sample_Marshal (JSONReply 200 None) get_x (start fresh) = Ok tt w /\
    sink w = [SWriteHeader 200] /\
    forall b, SWrite b ∉ sink w.
Proof.
  eexists. split; [reflexivity|]. split; [reflexivity|].
  intros b Hin. simpl in Hin. apply list_elem_of_singleton in Hin. discriminate.
Qed.

(** C7, as stated, fails: a request that matches nothing ends the handler
    with no status code written. *)
Lemma unmatched_request_writes_no_status :
  findExpectedCall (m fresh) "ServeHTTP" plain_args = Some (NotFound None) /\
  exists w,
    serve get_x (start fresh) = Goexit w /\
    forall status, SWriteHeader status ∉ sink w.
Proof.
  split; [reflexivity|]. eexists. split; [reflexivity|].
  intros status Hin. simpl in Hin. by apply not_elem_of_nil in Hin.
Qed.


(** A request that carries the filtered header, with two values, is served
    by the expectation that names no header, and nothing is reported. *)
Example filtered_header_still_matches :
  serve (get_x_with agent_header None) (start filtering)
  = Ok tt (set_sink [SWriteHeader 204]
             (set_mock (record_call 0 "ServeHTTP" plain_args (m filtering))
                       (start filtering))).
Proof. vm_compute. reflexivity. Qed.

(** * The theorems at sample inputs *)

Lemma fifo_consumption_witness :
  findExpectedCall (m fresh) "ServeHTTP" plain_args = Some (NotFound None) /\
  Diff (criteria (NewMockRequest "GET" "/x")) plain_args = Some 0%nat /\
  normalize sample_Unmarshal get_x (start twice_once) = Ok plain_args (start twice_once) /\
  exists w2,
    serve get_x (start twice_once) = replyFn sample_Marshal (TxtReply 200 "first") get_x w2 /\
    callCount (api w2) {| c := 0 |} = Some 1 /\
    callCount (api w2) {| c := 1 |} = Some 0 /\
    forall w3 w4,
      api w3 = api w2 ->
      normalize sample_Unmarshal get_x w3 = Ok plain_args w4 ->
      exists w5,
        serve get_x w3 = replyFn sample_Marshal (TxtReply 200 "second") get_x w5 /\
        callCount (api w5) {| c := 0 |} = Some 1 /\
        callCount (api w5) {| c := 1 |} = Some 1.
Proof.
  split; [reflexivity|]. split; [reflexivity|]. split; [reflexivity|].
  exact (fifo_consumption sample_Unmarshal sample_Marshal fresh
           (NewMockRequest "GET" "/x") (TxtReply 200 "first") (TxtReply 200 "second")
           get_x get_x plain_args plain_args (start twice_once) (start twice_once)
           eq_refl eq_refl eq_refl eq_refl eq_refl eq_refl).
Defined.

Lemma gate_holds_response_witness :
  normalize sample_Unmarshal get_x (start gated) = Ok plain_args (start gated) /\
  findExpectedCall (m gated) "ServeHTTP" plain_args = Some (Found 0) /\
  WaitFor <$> ExpectedCalls (m gated) !! 0%nat = Some (Some gate) /\
  exists w2 resume,
    serve get_x (start gated) = Blocked gate w2 resume /\
    sink w2 = [] /\
    callCount (api w2) {| c := 0 |} = Some 1 /\
    sink (last_world (resume w2)) = [SWriteHeader 200; SWrite (String.list_byte_of_string "late")].
Proof.
  split; [reflexivity|]. split; [reflexivity|]. split; [reflexivity|].
  destruct (gate_holds_response sample_Unmarshal sample_Marshal get_x
              (start gated) (start gated) plain_args 0
              {| Method := "ServeHTTP"; Arguments := plain_args;
                 ReturnArguments := [RetMockResponse (TxtReply 200 "late")];
                 Repeatability := 0; totalCalls := 0; optional := false;
                 WaitFor := Some gate |}
              gate eq_refl eq_refl eq_refl eq_refl)
    as (w2 & resume & Hs & Hsink & Hk & _ & Hr).
  exists w2, resume. split; [exact Hs|]. split; [exact Hsink|].
  split; [unfold callCount; simpl; rewrite Hk; reflexivity|].
  rewrite (Hr w2 (TxtReply 200 "late")) by (rewrite Hk; reflexivity).
  simpl. rewrite Hsink. reflexivity.
Defined.

Lemma unmatched_request_reported_witness :
  normalize sample_Unmarshal get_x (start fresh) = Ok plain_args (start fresh) /\
  findExpectedCall (m fresh) "ServeHTTP" plain_args = Some (NotFound None) /\
  sink (last_world (serve get_x (start fresh))) = [] /\
  serve get_x (start fresh) = Goexit (last_world (serve get_x (start fresh))) /\
  log (last_world (serve get_x (start fresh))) =
    [(reporter, TErrorf (MsgUnexpectedCall "ServeHTTP" plain_args)); (reporter, TFailNow)].
Proof.
  split; [reflexivity|]. split; [reflexivity|].
  exact (unmatched_request_reported sample_Unmarshal sample_Marshal get_x
           (start fresh) (start fresh) plain_args eq_refl eq_refl).
Defined.

Lemma filtered_header_ignored_witness :
  "User-Agent"%string ∈ filteredHeaders filtering /\
  (forall args w1,
     normalize sample_Unmarshal (get_x_with agent_header None) (start filtering) = Ok args w1 ->
     exists hs,
       args !! 2%nat = Some (VStrMap hs) /\
       hs ≫= (.!! "User-Agent"%string) = None /\
       forall values,
         normalize sample_Unmarshal
                   (with_header "User-Agent" values (get_x_with agent_header None))
                   (start filtering) = Ok args w1) /\
  (dom (r_Header (get_x_with agent_header None)) ⊆ filteredHeaders filtering ->
   collect_headers (get_x_with agent_header None) (start filtering)
   = Ok None (start filtering)).
Proof.
  assert (H : "User-Agent"%string ∈ filteredHeaders filtering).
  { apply (elem_of_list_to_set (C := gset string)). by left. }
  split; [exact H|].
  exact (filtered_header_ignored sample_Unmarshal (get_x_with agent_header None)
           (start filtering) "User-Agent" H).
Defined.


(** * Further properties of the handler *)

Section Coverage.

Context {jobject : Type} `{!EqDecision jobject} {reply : Type}.
Variable json_Unmarshal : list byte -> option jobject * option error.
Variable json_Marshal : reply -> list byte + error.

Local Abbreviation World := (@World jobject reply).
Local Abbreviation MockAPI := (@MockAPI jobject reply).
Local Abbreviation M := (@M jobject reply).
Local Abbreviation Value := (@Value jobject).
Local Abbreviation Call := (@Call jobject reply).
Local Abbreviation Mock := (@Mock jobject reply).
Local Abbreviation Response := (@Response reply).

(** ** The outcomes of the loops *)

(** A round of the loop returns or panics, and touches the log only. *)
Lemma collect_step_cases F msg acc entry (w : World) :
  (exists res w1, collect_step F msg acc entry w = Ok res w1 /\
                  api w1 = api w /\ sink w1 = sink w) \/
  (exists v, collect_step F msg acc entry w = Panic v w).
Proof.
  unfold collect_step. case_bool_decide.
  - left. by exists acc, w.
  - destruct (entry.2) as [|v0 vs]; [right; by eexists|].
    unfold bind, Errorf. destruct (t (api w)) as [rep|]; simpl.
    + left. by eexists _, _.
    + right. by eexists.
Qed.

Lemma collect_cases F msg entries acc (w : World) :
  (exists res w1, collect F msg entries acc w = Ok res w1 /\
                  api w1 = api w /\ sink w1 = sink w) \/
  (exists v w1, collect F msg entries acc w = Panic v w1 /\
                api w1 = api w /\ sink w1 = sink w).
Proof.
  revert acc w. induction entries as [|e rest IH]; simpl; intros acc w.
  - left. by exists acc, w.
  - unfold bind.
    destruct (collect_step_cases F msg acc e w) as [(acc' & w' & -> & Ha & Hs)|(v & ->)]; simpl.
    + destruct (IH acc' w') as [(res & w1 & -> & Ha1 & Hs1)|(v & w1 & -> & Ha1 & Hs1)].
      * left. exists res, w1. split; [done|]. split; congruence.
      * right. exists v, w1. split; [done|]. split; congruence.
    + right. by exists v, w.
Qed.

Lemma bind_Panic {A B} (x : M A) (f : A -> M B) (w w1 : World) v :
  x w = Panic v w1 -> bind x f w = Panic v w1.
Proof. unfold bind. intros ->. reflexivity. Qed.

Lemma normalize_cases r (w : World) :
  (exists args w1, normalize json_Unmarshal r w = Ok args w1 /\
                   api w1 = api w /\ sink w1 = sink w) \/
  (exists v w1, normalize json_Unmarshal r w = Panic v w1 /\
                api w1 = api w /\ sink w1 = sink w).
Proof.
  unfold normalize.
  destruct (collect_cases (filteredHeaders (api w)) "multi-value header was unexpected"
              (map_to_list (r_Header r)) None w)
    as [(hs & w' & Hh & Ha & Hs)|(v & w' & Hh & Ha & Hs)].
  - change (collect_headers r w = Ok hs w') in Hh. rewrite (bind_Ok _ _ _ _ _ Hh).
    destruct (collect_cases (filteredParams (api w')) "multi-value query param was unexpected"
                (map_to_list (r_Query r)) None w')
      as [(ps & w1 & Hp & Ha1 & Hs1)|(v & w1 & Hp & Ha1 & Hs1)].
    + change (collect_params r w' = Ok ps w1) in Hp. rewrite (bind_Ok _ _ _ _ _ Hp).
      left. eexists _, _. split; [reflexivity|]. split; congruence.
    + change (collect_params r w' = Panic v w1) in Hp. rewrite (bind_Panic _ _ _ _ _ Hp).
      right. eexists _, _. split; [reflexivity|]. split; congruence.
  - change (collect_headers r w = Panic v w') in Hh. rewrite (bind_Panic _ _ _ _ _ Hh).
    right. eexists _, _. split; [reflexivity|]. split; congruence.
Qed.

(** What a successful loop has put under each key. *)
Lemma collect_lookup F msg (entries : list (string * list string)) acc (w w1 : World) res :
  NoDup entries.*1 ->
  collect F msg entries acc w = Ok res w1 ->
  forall k,
    res ≫= (.!! k) =
      if decide (k ∈ F) then acc ≫= (.!! k)
      else match (list_to_map entries : gmap string (list string)) !! k with
           | Some vs => head vs
           | None => acc ≫= (.!! k)
           end.
Proof.
  revert acc w. induction entries as [|[k0 vs0] rest IH]; simpl; intros acc w Hnd.
  - intros [= <- <-] k. rewrite lookup_empty. by case_decide.
  - intros H k. apply NoDup_cons in Hnd as [Hk0 Hnd].
    apply bind_Ok_inv in H as (acc' & w' & Hs & Hr).
    rewrite (IH _ _ Hnd Hr k).
    apply collect_step_Ok_inv in Hs
      as (_ & _ & [(-> & _ & Hin)|(Hn & v0 & vs & rep & Hv & _ & -> & _)]); simpl in *.
    + case_decide as Hk; [done|].
      rewrite lookup_insert_ne by (intros ->; done). done.
    + assert (Hacc : forall j, j <> k0 ->
                (<[k0:=v0]> (default ∅ acc) : gmap string string) !! j = acc ≫= (.!! j)).
      { intros j Hj. rewrite lookup_insert_ne by done.
        destruct acc; simpl; [done|apply lookup_empty]. }
      case_decide as Hk.
      * apply Hacc. intros ->. done.
      * destruct (decide (k = k0)) as [->|Hne].
        -- rewrite lookup_insert_eq.
           apply not_elem_of_list_to_map in Hk0. rewrite Hk0.
           rewrite lookup_insert_eq, Hv. reflexivity.
        -- rewrite !lookup_insert_ne by done.
           destruct (list_to_map rest !! k); [done|].
           destruct acc; simpl; [done|apply lookup_empty].
Qed.

(** A successful loop returns nil exactly when it kept no key. *)
Lemma collect_nil F msg (entries : list (string * list string)) acc (w w1 : World) res :
  collect F msg entries acc w = Ok res w1 ->
  (res = None <-> acc = None /\ Forall (fun e => e.1 ∈ F) entries) /\
  (acc <> Some ∅ -> res <> Some ∅).
Proof.
  revert acc w. induction entries as [|e rest IH]; simpl; intros acc w.
  - intros [= <- <-]. split; [|done]. split; [by intros ->|by intros [-> _]].
  - intros H. apply bind_Ok_inv in H as (acc' & w' & Hs & Hr).
    destruct (IH _ _ Hr) as [IH1 IH2].
    apply collect_step_Ok_inv in Hs
      as (_ & _ & [(-> & _ & Hin)|(Hn & v0 & vs & rep & Hv & _ & -> & _)]).
    + split; [|done]. rewrite IH1, Forall_cons. tauto.
    + split.
      * rewrite IH1, Forall_cons. split; [by intros [[=] _]|]. intros (_ & Hc & _). done.
      * intros _. apply IH2. intros [= He]. by apply insert_non_empty in He.
Qed.

(** Every key a successful loop kept had a first value, and a reporter was
    there to take the report. *)
Lemma collect_Ok_kept F msg (entries : list (string * list string)) acc (w w1 : World) res :
  collect F msg entries acc w = Ok res w1 ->
  forall k vs, (k, vs) ∈ entries -> k ∉ F -> vs <> [] /\ is_Some (t (api w)).
Proof.
  revert acc w. induction entries as [|e rest IH]; simpl; intros acc w.
  - intros _ k vs Hin. by apply not_elem_of_nil in Hin.
  - intros H k vs Hin Hk. apply bind_Ok_inv in H as (acc' & w' & Hs & Hr).
    apply collect_step_Ok_inv in Hs
      as (Ha & _ & [(_ & -> & Hf)|(_ & v0 & vs0 & rep & Hv & Ht & _ & _)]).
    + apply elem_of_cons in Hin as [<-|Hin]; [done|]. eapply IH; eauto.
    + apply elem_of_cons in Hin as [<-|Hin].
      * simpl in Hv. subst vs. split; [done|eauto].
      * destruct (IH _ _ Hr k vs Hin Hk) as [Hvs Hsome]. split; [done|].
        by rewrite Ha in Hsome.
Qed.

Lemma Forall_filtered_dom (H : gmap string (list string)) (F : gset string) :
  Forall (fun e => e.1 ∈ F) (map_to_list H) <-> dom H ⊆ F.
Proof.
  rewrite Forall_forall. split.
  - intros Hall k Hk. apply elem_of_dom in Hk as [vs Hk].
    apply (Hall (k, vs)). by apply elem_of_map_to_list.
  - intros Hd [k vs] Hin. apply Hd, elem_of_dom. apply elem_of_map_to_list in Hin. eauto.
Qed.

(** ** The arguments handed to the mock *)

(** X1: when normalisation succeeds, the arguments are the method, the
    path, the two maps and the recorded body; each map holds, for every key
    that is not filtered, the first value the request carries under it, and
    nothing else; and a map is nil exactly when every key of the request is
    filtered. *)
Theorem fingerprint_maps (r : Request) (w w1 : World) (args : list Value) :
  normalize json_Unmarshal r w = Ok args w1 ->
  exists hs ps,
    args = [VString (r_Method r); VString (r_Path r); VStrMap hs; VStrMap ps;
            read_body json_Unmarshal r] /\
    (forall k, hs ≫= (.!! k) =
               if decide (k ∈ filteredHeaders (api w)) then None
               else r_Header r !! k ≫= head) /\
    (forall k, ps ≫= (.!! k) =
               if decide (k ∈ filteredParams (api w)) then None
               else r_Query r !! k ≫= head) /\
    (hs = None <-> dom (r_Header r) ⊆ filteredHeaders (api w)) /\
    (ps = None <-> dom (r_Query r) ⊆ filteredParams (api w)).
Proof.
  intros Hn. apply normalize_Ok_inv in Hn as (hs & ps & w' & Hh & Hp & -> & _ & _).
  pose proof (collect_Ok_frame _ _ _ _ _ _ _ Hh) as [Ha _].
  unfold collect_headers in Hh. unfold collect_params in Hp. rewrite Ha in Hp.
  exists hs, ps. split; [reflexivity|]. repeat split.
  - intros k. rewrite (collect_lookup _ _ _ _ _ _ _ (NoDup_fst_map_to_list _) Hh k).
    rewrite list_to_map_to_list. case_decide; [done|]. by destruct (r_Header r !! k).
  - intros k. rewrite (collect_lookup _ _ _ _ _ _ _ (NoDup_fst_map_to_list _) Hp k).
    rewrite list_to_map_to_list. case_decide; [done|]. by destruct (r_Query r !! k).
  - intros Hnil. apply Forall_filtered_dom.
    by apply (proj1 (collect_nil _ _ _ _ _ _ _ Hh)) in Hnil as [_ ?].
  - intros Hd. apply (proj1 (collect_nil _ _ _ _ _ _ _ Hh)). split; [done|].
    by apply Forall_filtered_dom.
  - intros Hnil. apply Forall_filtered_dom.
    by apply (proj1 (collect_nil _ _ _ _ _ _ _ Hp)) in Hnil as [_ ?].
  - intros Hd. apply (proj1 (collect_nil _ _ _ _ _ _ _ Hp)). split; [done|].
    by apply Forall_filtered_dom.
Qed.

(** X2: a request that carries a key which is not filtered and has an empty
    list of values, or that keeps any key while no reporter is attached, makes
    [ServeHTTP] panic during normalisation: the mock is not consulted and
    nothing is written. *)
Theorem kept_key_panics (r : Request) (w : World) (k : string) (vs : list string) :
  (r_Header r !! k = Some vs /\ k ∉ filteredHeaders (api w)) \/
  (r_Query r !! k = Some vs /\ k ∉ filteredParams (api w)) ->
  vs = [] \/ t (api w) = None ->
  exists v w1,
    ServeHTTP json_Unmarshal json_Marshal r w = Panic v w1 /\
    api w1 = api w /\ sink w1 = sink w.
Proof.
  intros Hkey Hbad.
  destruct (normalize_cases r w) as [(args & w1 & Hn & _)|(v & w1 & Hn & Ha & Hs)].
  - exfalso. apply normalize_Ok_inv in Hn as (hs & ps & w' & Hh & Hp & _).
    pose proof (collect_Ok_frame _ _ _ _ _ _ _ Hh) as [Ha _].
    assert (Hgood : vs <> [] /\ is_Some (t (api w))).
    { destruct Hkey as [[Hl Hf]|[Hl Hf]].
      - apply (collect_Ok_kept _ _ _ _ _ _ _ Hh k vs); [|done].
        by apply elem_of_map_to_list.
      - unfold collect_params in Hp. rewrite <- Ha.
        apply (collect_Ok_kept _ _ _ _ _ _ _ Hp k vs); [|by rewrite Ha].
        by apply elem_of_map_to_list. }
    destruct Hgood as [Hne [rep Hrep]]. destruct Hbad as [->|Ht]; [done|congruence].
  - exists v, w1. split; [|done]. unfold ServeHTTP. by apply bind_Panic.
Qed.

(** X3: the recorded body is nil exactly when the request has no body,
    reading it failed, or it is empty. *)
Theorem recorded_body_nil_iff (r : Request) :
  read_body json_Unmarshal r = VNil <->
  r_Body r = None \/
  exists b err, r_Body r = Some (b, err) /\ (err <> None \/ b = []).
Proof.
  unfold read_body. destruct (r_Body r) as [[b err]|]; [|by intuition].
  destruct err as [e|]; simpl.
  - split; [|done]. intros _. right. exists b, (Some e). split; [done|]. by left.
  - destruct b as [|x b]; simpl.
    + split; [|done]. intros _. right. exists [], None. split; [done|]. by right.
    + split.
      * destruct (json_Unmarshal (x :: b)) as [bodyMap [e|]]; discriminate.
      * intros [[=]|(b' & err' & [= <- <-] & [Hc|[=]])]. done.
Qed.

(** X4: an expectation registered with an empty, non-nil header map or
    query map agrees with the arguments of no request: the maps [ServeHTTP]
    builds are nil or hold at least one key. *)
Theorem empty_map_never_matches (req : MockRequest) (r : Request) (w w1 : World)
    (args : list Value) :
  headers req = Some ∅ \/ queryParams req = Some ∅ ->
  normalize json_Unmarshal r w = Ok args w1 ->
  Diff (criteria req) args <> Some 0%nat.
Proof.
  intros Hempty Hn. apply normalize_Ok_inv in Hn as (hs & ps & w' & Hh & Hp & -> & _ & _).
  assert (Hhs : hs <> Some ∅) by (by apply (proj2 (collect_nil _ _ _ _ _ _ _ Hh))).
  assert (Hps : ps <> Some ∅) by (by apply (proj2 (collect_nil _ _ _ _ _ _ _ Hp))).
  unfold Diff, criteria. simpl.
  destruct (arg_differs (body req) (read_body json_Unmarshal r)) as [d4|]; [|done].
  destruct Hempty as [He|He]; rewrite He; simpl.
  - rewrite (bool_decide_eq_false_2 (VStrMap hs = VStrMap (Some ∅))) by congruence.
    simpl. repeat (case_match; simpl); by rewrite ?Nat.add_succ_r.
  - rewrite (bool_decide_eq_false_2 (VStrMap ps = VStrMap (Some ∅))) by congruence.
    simpl. repeat (case_match; simpl); by rewrite ?Nat.add_succ_r.
Qed.

(** ** Filtered query parameters *)

Lemma collect_insert_filtered F msg (H : gmap string (list string)) k vs acc
    (w w1 : World) res :
  k ∈ F ->
  collect F msg (map_to_list H) acc w = Ok res w1 ->
  collect F msg (map_to_list (<[k:=vs]> H)) acc w = Ok res w1.
Proof.
  intros Hf Hc.
  assert (Hd : collect F msg (map_to_list (delete k H)) acc w = Ok res w1).
  { destruct (H !! k) as [vs0|] eqn:El.
    - rewrite <- (collect_skip _ _ k vs0) by done.
      eapply collect_perm; [| |exact Hc].
      + symmetry. by apply map_to_list_delete.
      + apply NoDup_fst_map_to_list.
    - by rewrite delete_id. }
  eapply collect_perm.
  - symmetry. rewrite <- insert_delete_eq. apply map_to_list_insert, lookup_delete_eq.
  - simpl. constructor; [|apply NoDup_fst_map_to_list].
    rewrite list_elem_of_fmap. intros [[k' v] [Hk Hin]]. simpl in Hk. subst k'.
    apply elem_of_map_to_list in Hin. by rewrite lookup_delete_eq in Hin.
  - by rewrite collect_skip.
Qed.

(** X5: a query parameter whose name is in the filtered set is absent from
    the parameter map handed to the mock; the arguments are the same
    whatever values the request carries under that name; and the parameter
    map is nil when every parameter of the request is filtered. *)
Theorem filtered_param_ignored (r : Request) (w : World) (param : string) :
  param ∈ filteredParams (api w) ->
  (forall args w1,
     normalize json_Unmarshal r w = Ok args w1 ->
     exists ps,
       args !! 3%nat = Some (VStrMap ps) /\
       ps ≫= (.!! param) = None /\
       forall values,
         normalize json_Unmarshal (with_query param values r) w = Ok args w1) /\
  (dom (r_Query r) ⊆ filteredParams (api w) -> collect_params r w = Ok None w).
Proof.
  intros Hf. split.
  - intros args w1 Hn.
    apply normalize_Ok_inv in Hn as (hs & ps & w' & Hh & Hp & -> & _ & _).
    pose proof (collect_Ok_frame _ _ _ _ _ _ _ Hh) as [Ha _].
    exists ps. split; [reflexivity|]. split.
    + unfold collect_params in Hp. eapply collect_Ok_filtered; eauto. by rewrite Ha.
    + intros values. unfold normalize.
      change (@collect_headers jobject reply (with_query param values r))
        with (@collect_headers jobject reply r).
      rewrite (bind_Ok _ _ _ _ _ Hh).
      assert (Hp' : collect_params (with_query param values r) w' = Ok ps w1).
      { unfold collect_params in *. simpl.
        apply collect_insert_filtered; [by rewrite Ha|done]. }
      rewrite (bind_Ok _ _ _ _ _ Hp'). reflexivity.
  - intros Hd. unfold collect_params. apply collect_all_filtered.
    by apply Forall_filtered_dom.
Qed.

(** ** Expectations limited by [Times] *)

Lemma wrap_int_small (x : Z) : min_int <= x <= max_int -> wrap_int x = x.
Proof.
  unfold wrap_int, min_int, max_int. intros Hx.
  rewrite Z.mod_small by lia. lia.
Qed.

Lemma served_ExpectedCalls n i (args : list Value) (mk : Mock) :
  ExpectedCalls (served n i args mk) = alter (Nat.iter n consume) i (ExpectedCalls mk) /\
  test (served n i args mk) = test mk.
Proof.
  induction n as [|n [IHe IHt]].
  - split; [|done]. simpl. by rewrite list_alter_id.
  - change (served (S n) i args mk)
      with (record_call i "ServeHTTP" args (served n i args mk)).
    unfold record_call at 1 2. cbn [ExpectedCalls test]. split; [|done].
    rewrite IHe, list_alter_alter_eq. reflexivity.
Qed.

(** The bookkeeping on a call limited to [n] repetitions, over its first
    [n] calls. *)
Lemma consume_limited (n j : nat) (k : Call) :
  Repeatability k = Z.of_nat n -> totalCalls k = 0 ->
  (1 <= n)%nat -> Z.of_nat n <= max_int -> (j <= n)%nat ->
  Repeatability (Nat.iter j consume k) = (if decide (j = n) then -1 else Z.of_nat n - Z.of_nat j) /\
  totalCalls (Nat.iter j consume k) = Z.of_nat j /\
  Method (Nat.iter j consume k) = Method k /\
  Arguments (Nat.iter j consume k) = Arguments k /\
  optional (Nat.iter j consume k) = optional k.
Proof.
  intros Hr Ht Hn Hmax. induction j as [|j IH]; intros Hj.
  - simpl. case_decide; [lia|]. repeat split; [lia|done].
  - destruct IH as (IHr & IHt & IHm & IHa & IHo); [lia|].
    rewrite decide_False in IHr by lia.
    simpl. rewrite IHr, IHt, IHm, IHa, IHo. repeat split.
    + case_decide as HSn.
      * replace (Z.of_nat n - Z.of_nat j) with 1 by lia. reflexivity.
      * destruct (Z.eqb_spec (Z.of_nat n - Z.of_nat j) 1) as [?|_]; [lia|].
        destruct (Z.gtb_spec (Z.of_nat n - Z.of_nat j) 1) as [_|?]; [|lia].
        rewrite wrap_int_small by (unfold min_int, max_int in *; lia). lia.
    + rewrite wrap_int_small by (unfold min_int, max_int in *; lia). lia.
Qed.

(** X6: an expectation limited to [n] calls by [Times(n)] ([Once] and
    [Twice] are [Times(1)] and [Times(2)]) passes the check of
    [AssertExpectations] after exactly [n] calls have been counted against
    it, and fails it after any smaller number, zero included. *)
Theorem times_exact_cardinality (a : MockAPI) (req : MockRequest) (resp : Response)
    (args : list Value) (n j : nat) :
  Calls (m a) = [] ->
  Diff (criteria req) args = Some 0%nat ->
  (1 <= n)%nat -> Z.of_nat n <= max_int -> (j <= n)%nat ->
  let reg := WithRequest req resp a in
  expectation_met (served j (c reg.1) args (m (Times reg.1 (Z.of_nat n) reg.2))) (c reg.1)
  = Some (Some (bool_decide (j = n))) /\
  Once reg.1 reg.2 = Times reg.1 1 reg.2 /\
  Twice reg.1 reg.2 = Times reg.1 2 reg.2.
Proof.
  intros Hc Hd Hn Hmax Hj reg. subst reg. split; [|split; reflexivity].
  destruct (WithRequest_Times_calls req resp (Z.of_nat n) a) as [Hi He].
  destruct (WithRequest_calls req resp a) as (_ & _ & Hcalls & _).
  unfold expectation_met. rewrite served_lookup, He, Hi.
  rewrite lookup_app_r, Nat.sub_diag by lia. simpl. f_equal.
  set (k := Build_Call _ _ _ _ _ _ _).
  destruct (consume_limited n j k eq_refl eq_refl Hn Hmax Hj) as (Hr & Ht & Hmth & Ha & Ho).
  unfold checkExpectation. rewrite Ho, Hr, Ht, Hmth, Ha, served_Calls. simpl.
  rewrite Hc. simpl.
  destruct j as [|j].
  - simpl. rewrite bool_decide_eq_false_2 by lia. reflexivity.
  - cbn [replicate methodWasCalled]. rewrite bool_decide_eq_true_2 by done.
    rewrite Hd. cbn [negb andb]. case_decide as Hjn.
    + by rewrite bool_decide_eq_true_2.
    + rewrite bool_decide_eq_false_2 by done.
      destruct (Z.gtb_spec (Z.of_nat n - Z.of_nat (S j)) 0) as [_|?]; [done|lia].
Qed.


(** ** The fluent configuration of an expectation *)

(** X8: the configuration calls on a handle can be made in any order,
    repeating [Maybe] changes nothing, the last [Times] wins, calls on
    different handles do not interfere, and none of them touches another
    expectation. *)
Theorem fluent_configuration (h h' : MockAPICall) (a : MockAPI) (n n' : Z) (ch : chan) :
  Times h n (Maybe h a) = Maybe h (Times h n a) /\
  WaitUntil h ch (Times h n a) = Times h n (WaitUntil h ch a) /\
  WaitUntil h ch (Maybe h a) = Maybe h (WaitUntil h ch a) /\
  Times h n (Times h n' a) = Times h n a /\
  Maybe h (Maybe h a) = Maybe h a /\
  (c h <> c h' -> Times h n (Times h' n' a) = Times h' n' (Times h n a)) /\
  (forall j, j <> c h ->
     ExpectedCalls (m (WaitUntil h ch (Maybe h (Times h n a)))) !! j
     = ExpectedCalls (m a) !! j).
Proof.
  unfold Times, Maybe, WaitUntil, with_mock, Call_Times, Call_Maybe, Call_WaitUntil,
    update_call. cbn [t filteredHeaders filteredParams m ExpectedCalls Calls test].
  repeat split.
  - do 2 f_equal. rewrite !list_alter_alter_eq. by apply list_alter_ext.
  - do 2 f_equal. rewrite !list_alter_alter_eq. by apply list_alter_ext.
  - do 2 f_equal. rewrite !list_alter_alter_eq. by apply list_alter_ext.
  - do 2 f_equal. rewrite !list_alter_alter_eq. by apply list_alter_ext.
  - do 2 f_equal. rewrite !list_alter_alter_eq. by apply list_alter_ext.
  - intros Hne. do 2 f_equal. by apply list_alter_alter_ne.
  - intros j Hj. by rewrite !list_lookup_alter_ne.
Qed.

(** ** Teardown without a reporter *)

(** X9: on an API created without a reporter, [Close] returns normally
    when nothing is registered and panics on the first expectation
    otherwise, before anything is reported. *)
Theorem Close_without_reporter (w : World) :
  t (api w) = None ->
  Close w = match ExpectedCalls (m (api w)) with
            | [] => Ok tt w
            | _ :: _ => Panic PanicNilDeref w
            end.
Proof.
  intros Ht. unfold Close, Mock_AssertExpectations, bind. rewrite Ht.
  destruct (ExpectedCalls (m (api w))) as [|k rest]; simpl; [reflexivity|].
  destruct (checkExpectation (m (api w)) k) as [[|]|]; reflexivity.
Qed.

(** ** Streaming replies *)

(** X10: a streaming reply writes the status code first; a nil reader ends
    the response there; otherwise the bytes the reader yields make up the
    body, and an error of the reader is reported through the reporter
    ([Errorf], then [FailNow]) or, without a reporter, raised as a panic
    carrying it.  Without an error the response ends normally, reporter or
    not.  The registry is never touched. *)
Theorem StreamingReply_behaviour (status : Z) (rd : option Reader) (r : Request) (w : World) :
  let res := replyFn json_Marshal (StreamingReply status rd) r w in
  match rd with
  | None => res = Ok tt (set_sink (sink w ++ [SWriteHeader status]) w)
  | Some (data, err) =>
      (exists evs, sink (last_world res) = sink w ++ SWriteHeader status :: evs /\
                   sink_body evs = data) /\
      api (last_world res) = api w /\
      match err with
      | None => res = Ok tt (last_world res) /\ log (last_world res) = log w
      | Some e =>
          match t (api w) with
          | Some reporter0 =>
              res = Goexit (last_world res) /\
              log (last_world res) =
                log w ++ [(reporter0, TErrorf (MsgNoError e)); (reporter0, TFailNow)]
          | None => res = Panic (PanicErr (Some e)) (last_world res)
          end
      end
  end.
Proof.
  destruct rd as [[data err]|]; simpl; [|reflexivity].
  unfold bind, WriteHeader, Copy, checkError; simpl.
  destruct data as [|x data], (t (api w)) as [rep|] eqn:Et, err as [e|];
    simpl; rewrite ?Et; unfold require_NoError, bind, Errorf, FailNow, ret, panic;
    simpl; rewrite <- ?app_assoc; simpl;
    (split; [first [by exists [] | exists [SWrite (x :: data)]; simpl; by rewrite app_nil_r]|]);
    repeat split; reflexivity.
Qed.

(** ** What the assertion reports *)

Lemma assert_loop_spec (rep : TestingT) (mk : Mock) (calls : list Call) (bs : list bool) :
  Forall2 (fun k b => checkExpectation mk k = Some b) calls bs ->
  forall (f : Z) (w : World),
    assert_loop (Some rep) mk calls f w =
    Ok (f + Z.of_nat (length (filter (fun b => b = false) bs)))
       (set_log (log w ++
                 zip_with (fun k (b : bool) =>
                             (rep, TLogf ((if b then MsgPASS else MsgFAIL)
                                            (Method k) (Arguments k))))
                          calls bs) w).
Proof.
  induction 1 as [|k b calls bs Hk _ IH]; intros f w.
  - simpl. unfold ret, set_log. rewrite Z.add_0_r, app_nil_r. by destruct w.
  - simpl. rewrite Hk. destruct b; unfold bind, Logf; simpl; rewrite IH;
      unfold set_log; simpl; rewrite <- app_assoc; simpl.
    + reflexivity.
    + f_equal. change (filter (fun b => b = false) (false :: bs))
        with (false :: filter (fun b => b = false) bs).
      simpl length. lia.
Qed.

(** X11: with a reporter, and when no comparison of arguments panics, the
    check logs one line per expectation, in registration order, saying
    whether it is met; it reports one error, after those lines, exactly when
    some expectation is unmet; and it changes nothing but the log.  [Close]
    and [AssertExpectations] both run this check. *)
Theorem assertion_report (w : World) (rep : TestingT) (bs : list bool) :
  Forall2 (fun k b => checkExpectation (m (api w)) k = Some b)
          (ExpectedCalls (m (api w))) bs ->
  let calls := ExpectedCalls (m (api w)) in
  let failed := Z.of_nat (length (filter (fun b => b = false) bs)) in
  let w' :=
    set_log (log w ++
             zip_with (fun k (b : bool) =>
                         (rep, TLogf ((if b then MsgPASS else MsgFAIL)
                                        (Method k) (Arguments k))))
                      calls bs ++
             (if bool_decide (failed = 0) then []
              else [(rep, TErrorf (MsgSummary (Z.of_nat (length calls) - failed)
                                              (Z.of_nat (length calls))))])) w in
  Mock_AssertExpectations (Some rep) w = Ok (bool_decide (failed = 0)) w' /\
  AssertExpectations (Some rep) w = Ok tt w' /\
  (t (api w) = Some rep -> Close w = Ok tt w').
Proof.
  intros Hall calls failed w'.
  assert (Hm : Mock_AssertExpectations (Some rep) w = Ok (bool_decide (failed = 0)) w').
  { unfold Mock_AssertExpectations, bind.
    rewrite (assert_loop_spec rep _ _ _ Hall 0 w). simpl. rewrite Z.add_0_l.
    fold failed. subst w'. case_bool_decide as Hf.
    - rewrite (proj2 (Z.eqb_eq _ _) Hf). unfold ret. by rewrite app_nil_r.
    - rewrite (proj2 (Z.eqb_neq _ _) Hf). unfold bind, Errorf, ret, set_log. simpl.
      by rewrite <- app_assoc. }
  split; [exact Hm|]. split.
  - unfold AssertExpectations, bind. by rewrite Hm.
  - intros Ht. unfold Close, bind. by rewrite Ht, Hm.
Qed.

(** ** What serving a request leaves alone *)

Lemma fmap_alter_consume {B} (g : Call -> B) (i : nat) (l : list Call) :
  (forall k, g (consume k) = g k) -> g <$> alter consume i l = g <$> l.
Proof.
  intros Hg. apply list_eq. intros j. rewrite !list_lookup_fmap.
  destruct (decide (i = j)) as [->|Hne].
  - rewrite list_lookup_alter_eq. destruct (l !! j); simpl; by rewrite ?Hg.
  - by rewrite list_lookup_alter_ne.
Qed.

(** X12: serving a request, whatever its outcome, leaves the reporter and
    the filter sets as they are, neither adds nor removes an expectation nor
    changes the method, arguments, response, optional mark or gate of one,
    and records at most one call. *)
Theorem ServeHTTP_keeps_configuration (r : Request) (w : World) :
  let w' := last_world (ServeHTTP json_Unmarshal json_Marshal r w) in
  t (api w') = t (api w) /\
  filteredHeaders (api w') = filteredHeaders (api w) /\
  filteredParams (api w') = filteredParams (api w) /\
  test (m (api w')) = test (m (api w)) /\
  (fun k => (Method k, Arguments k, ReturnArguments k, optional k, WaitFor k))
    <$> ExpectedCalls (m (api w'))
  = (fun k => (Method k, Arguments k, ReturnArguments k, optional k, WaitFor k))
    <$> ExpectedCalls (m (api w)) /\
  (Calls (m (api w')) = Calls (m (api w)) \/
   exists args, Calls (m (api w')) = Calls (m (api w)) ++ [("ServeHTTP"%string, args)]).
Proof.
  intros w'. subst w'.
  destruct (normalize_cases r w) as [(args & w1 & Hn & Ha & _)|(v & w1 & Hn & Ha & _)].
  2:{ unfold ServeHTTP. rewrite (bind_Panic _ _ _ _ _ Hn). simpl. rewrite Ha.
      repeat split; auto. }
  rewrite (ServeHTTP_normalized _ _ _ _ _ _ Hn), <- Ha. clear Hn Ha w.
  unfold dispatch, bind, Called, MethodCalled.
  destruct (findExpectedCall (m (api w1)) "ServeHTTP" args) as [[i|[j|]]|]; simpl.
  - set (w2 := set_mock _ w1).
    assert (Hw2 :
      t (api w2) = t (api w1) /\
      filteredHeaders (api w2) = filteredHeaders (api w1) /\
      filteredParams (api w2) = filteredParams (api w1) /\
      test (m (api w2)) = test (m (api w1)) /\
      (fun k => (Method k, Arguments k, ReturnArguments k, optional k, WaitFor k))
        <$> ExpectedCalls (m (api w2))
      = (fun k => (Method k, Arguments k, ReturnArguments k, optional k, WaitFor k))
        <$> ExpectedCalls (m (api w1)) /\
      (Calls (m (api w2)) = Calls (m (api w1)) \/
       exists args, Calls (m (api w2)) = Calls (m (api w1)) ++ [("ServeHTTP"%string, args)])).
    { simpl. repeat split; [by apply fmap_alter_consume|right; by eexists]. }
    destruct (alter consume i (ExpectedCalls (m (api w1))) !! i ≫= WaitFor) as [ch|];
      simpl; [exact Hw2|].
    unfold respond, bind, Get.
    destruct (default [] _ !! 0%nat) as [[f|f]|]; unfold panic, ret; simpl;
      rewrite ?replyFn_api; exact Hw2.
  - unfold fail, bind, Errorf, FailNow. destruct (test (m (api w1))) eqn:Et; simpl;
      repeat split; auto.
  - unfold fail, bind, Errorf, FailNow. destruct (test (m (api w1))) eqn:Et; simpl;
      repeat split; auto.
  - repeat split; auto.
Qed.

(** ** Expectations without a call limit *)

Lemma consume_keeps n (k : Call) :
  Method (Nat.iter n consume k) = Method k /\
  Arguments (Nat.iter n consume k) = Arguments k /\
  ReturnArguments (Nat.iter n consume k) = ReturnArguments k /\
  optional (Nat.iter n consume k) = optional k /\
  WaitFor (Nat.iter n consume k) = WaitFor k.
Proof. induction n as [|n IH]; simpl; [done|exact IH]. Qed.

(** Serving a request from an expectation registered by [WithRequest] alone,
    after [j] earlier calls. *)
Lemma serve_unlimited (a : MockAPI) (req : MockRequest) (resp : Response) (j : nat)
    (r : Request) (args : list Value) (w w1 : World) :
  findExpectedCall (m a) "ServeHTTP" args = Some (NotFound None) ->
  Diff (criteria req) args = Some 0%nat ->
  m (api w) = served j (c (WithRequest req resp a).1) args (m (WithRequest req resp a).2) ->
  normalize json_Unmarshal r w = Ok args w1 ->
  ServeHTTP json_Unmarshal json_Marshal r w =
    replyFn json_Marshal resp r
      (set_mock (served (S j) (c (WithRequest req resp a).1) args
                   (m (WithRequest req resp a).2)) w1) /\
  sink w1 = sink w.
Proof.
  intros Hpre Hd Hm Hnorm.
  destruct (WithRequest_calls req resp a) as (Hi & He & _).
  pose proof Hnorm as Hn'.
  apply normalize_Ok_inv in Hn' as (_ & _ & _ & _ & _ & _ & Ha1 & Hs1).
  split; [|exact Hs1].
  rewrite (ServeHTTP_normalized _ _ _ _ _ _ Hnorm).
  destruct (served_ExpectedCalls j (c (WithRequest req resp a).1) args
              (m (WithRequest req resp a).2)) as [HE _].
  rewrite <- Hm, <- Ha1 in HE. rewrite He, Hi in HE.
  rewrite <- (Nat.add_0_r (length _)), alter_app_r in HE. simpl in HE.
  set (k := Build_Call _ _ _ _ _ _ _) in HE.
  destruct (consume_keeps j k) as (Hmth & Harg & Hret & _ & Hwait).
  destruct (consume_unlimited j k eq_refl) as (_ & _ & _ & Hr & _).
  assert (Hf : findExpectedCall (m (api w1)) "ServeHTTP" args
               = Some (Found (length (ExpectedCalls (m a))))).
  { unfold findExpectedCall in *. rewrite HE.
    rewrite (findExpectedCall_from_app _ _ _ _ _ _ _ Hpre). simpl.
    rewrite Hmth, Harg, Hr. simpl. rewrite Hd. reflexivity. }
  assert (Hk : ExpectedCalls (m (api w1)) !! length (ExpectedCalls (m a))
               = Some (Nat.iter j consume k)).
  { rewrite HE. by apply list_lookup_middle. }
  destruct (dispatch_Found json_Marshal r _ _ _ _ Hf Hk) as [_ ->].
  rewrite Hwait, Hret, Ha1, Hm, Hi. reflexivity.
Qed.


(** X14: a request matching an expectation registered by [WithTxtReply]
    gets the status code and then the reply string, byte for byte, and the
    handler returns normally; with [WithNoResponseBody] it gets the status
    code and no body.  Neither response reports anything. *)
Theorem text_and_empty_replies (a : MockAPI) (req : MockRequest) (status : Z)
    (rep : string) (r : Request) (args : list Value) (w w1 : World) :
  findExpectedCall (m a) "ServeHTTP" args = Some (NotFound None) ->
  Diff (criteria req) args = Some 0%nat ->
  normalize json_Unmarshal r w = Ok args w1 ->
  (api w = (WithTxtReply req status rep a).2 ->
   exists w2,
     ServeHTTP json_Unmarshal json_Marshal r w = Ok tt w2 /\
     sink w2 = sink w ++ [SWriteHeader status; SWrite (String.list_byte_of_string rep)] /\
     log w2 = log w1) /\
  (api w = (WithNoResponseBody req status a).2 ->
   exists w2,
     ServeHTTP json_Unmarshal json_Marshal r w = Ok tt w2 /\
     sink w2 = sink w ++ [SWriteHeader status] /\
     log w2 = log w1).
Proof.
  intros Hpre Hd Hnorm. split; intros Ha.
  - destruct (serve_unlimited a req (TxtReply status rep) 0 r args w w1 Hpre Hd) as [-> Hs];
      [by rewrite Ha|done|].
    eexists. split; [reflexivity|]. simpl. rewrite Hs, <- app_assoc. by split.
  - destruct (serve_unlimited a req (NoResponseBody status) 0 r args w w1 Hpre Hd) as [-> Hs];
      [by rewrite Ha|done|].
    eexists. split; [reflexivity|]. simpl. rewrite Hs. by split.
Qed.

(** ** Matching is equality *)

Lemma ObjectsAreEqual_eq (x y : Value) : ObjectsAreEqual x y = true <-> x = y.
Proof.
  destruct x as [|s|mp|[b|]|o|ty], y as [|s'|mp'|[b'|]|o'|ty']; simpl;
    rewrite ?bool_decide_eq_true; split; try done; try congruence.
Qed.

Lemma ObjectsAreEqual_neq (x y : Value) : x <> y -> ObjectsAreEqual x y = false.
Proof.
  intros Hne. destruct (ObjectsAreEqual x y) eqn:E; [|done].
  by apply ObjectsAreEqual_eq in E.
Qed.

(** A position compared by equality: neither side is [mock.Anything] and the
    expected value is not a type matcher. *)
Lemma arg_differs_plain (expected actual : Value) :
  expected <> Anything -> actual <> Anything ->
  (forall ty, expected <> VAnythingOfType ty) ->
  arg_differs expected actual = Some (negb (bool_decide (actual = expected))).
Proof.
  intros He Ha Hty. unfold arg_differs.
  rewrite (ObjectsAreEqual_neq _ _ He), (ObjectsAreEqual_neq _ _ Ha). simpl.
  destruct expected; try (by exfalso; eapply Hty); f_equal; f_equal;
    (case_bool_decide as Hd; [by apply ObjectsAreEqual_eq|by apply ObjectsAreEqual_neq]).
Qed.

(** X15: when neither the expectation nor the request uses the string
    [mock.Anything] as method or path, and the expected body is nil, a byte
    slice or a decoded object, an expectation agrees with a request exactly
    when its five arguments equal the five the request is normalised to. *)
Theorem match_is_equality (req : MockRequest) (r : Request) (w w1 : World)
    (args : list Value) :
  method req <> "mock.Anything"%string -> path req <> "mock.Anything"%string ->
  r_Method r <> "mock.Anything"%string -> r_Path r <> "mock.Anything"%string ->
  (forall s, body req <> VString s) -> (forall ty, body req <> VAnythingOfType ty) ->
  normalize json_Unmarshal r w = Ok args w1 ->
  Diff (criteria req) args = Some 0%nat <-> criteria req = args.
Proof.
  intros Hm Hp Hrm Hrp Hbs Hbt Hn.
  apply normalize_Ok_inv in Hn as (hs & ps & _ & _ & _ & -> & _ & _).
  assert (Hrb : read_body json_Unmarshal r <> Anything).
  { unfold read_body. destruct (r_Body r) as [[b err]|]; [|done].
    destruct (_ && _); [|done]. by destruct (json_Unmarshal b) as [? [?|]]. }
  unfold Diff, criteria. cbn [length Nat.max pad Nat.sub replicate app zip zip_with
                               count_differences].
  assert (Hb1 : body req <> Anything) by apply Hbs.
  rewrite !arg_differs_plain by (first [done | unfold Anything; congruence]).
  cbn [negb]. split.
  - repeat case_bool_decide; simpl; intros Hz; try discriminate Hz. congruence.
  - intros [= -> -> -> -> ->]. by rewrite !bool_decide_eq_true_2.
Qed.

(** X16: an expectation whose body is [mock.Anything] agrees with every
    request that has its method, path, headers and query parameters,
    whatever body the request carries. *)
Theorem Anything_body_matches (req : MockRequest) (r : Request) (w w1 : World)
    (args : list Value) :
  body req = Anything ->
  normalize json_Unmarshal r w = Ok args w1 ->
  take 4 args = take 4 (criteria req) ->
  Diff (criteria req) args = Some 0%nat.
Proof.
  intros Hb Hn Ht. apply normalize_Ok_inv in Hn as (hs & ps & _ & _ & _ & -> & _ & _).
  simpl in Ht. injection Ht as -> -> -> ->.
  unfold Diff, criteria. rewrite Hb. simpl.
  rewrite (bool_decide_eq_true_2 (VString (method req) = VString (method req))) by done.
  rewrite (bool_decide_eq_true_2 (VString (path req) = VString (path req))) by done.
  rewrite (bool_decide_eq_true_2 (VStrMap (headers req) = VStrMap (headers req))) by done.
  rewrite (bool_decide_eq_true_2 (VStrMap (queryParams req) = VStrMap (queryParams req)))
    by done.
  by rewrite !orb_true_r.
Qed.

(** ** The filter sets *)


End Coverage.

(** * The further properties at sample inputs *)

Lemma fingerprint_maps_witness :
  normalize sample_Unmarshal (get_x_with two_headers None) (start filtering)
  = Ok accept_args
       (set_log [(reporter, TErrorf (MsgText "multi-value header was unexpected"))]
                (start filtering)) /\
  exists hs ps,
    accept_args = [VString "GET"; VString "/x"; VStrMap hs; VStrMap ps; VNil] /\
    (forall k, hs ≫= (.!! k) =
               if decide (k ∈ filteredHeaders filtering) then None
               else two_headers !! k ≫= head) /\
    (forall k, ps ≫= (.!! k) =
               if decide (k ∈ filteredParams filtering) then None
               else (∅ : gmap string (list string)) !! k ≫= head) /\
    (hs = None <-> dom two_headers ⊆ filteredHeaders filtering) /\
    (ps = None <-> dom (∅ : gmap string (list string)) ⊆ filteredParams filtering).
Proof.
  assert (H : normalize sample_Unmarshal (get_x_with two_headers None) (start filtering)
              = Ok accept_args
                   (set_log [(reporter, TErrorf (MsgText "multi-value header was unexpected"))]
                            (start filtering))) by (vm_compute; reflexivity).
  split; [exact H|].
  exact (fingerprint_maps sample_Unmarshal _ _ _ _ H).
Defined.

Lemma kept_key_panics_witness :
  empty_header !! "X-Empty"%string = Some [] /\
  ("X-Empty"%string ∉ filteredHeaders fresh) /\
  exists v w1,
    serve (get_x_with empty_header None) (start fresh) = Panic v w1 /\
    api w1 = fresh /\ sink w1 = [].
Proof.
  assert (H1 : r_Header (get_x_with empty_header None) !! "X-Empty"%string = Some [])
    by reflexivity.
  assert (H2 : "X-Empty"%string ∉ filteredHeaders (api (start fresh)))
    by apply not_elem_of_empty.
  split; [exact H1|]. split; [exact H2|].
  exact (kept_key_panics sample_Unmarshal sample_Marshal (get_x_with empty_header None)
           (start fresh) "X-Empty" [] (or_introl (conj H1 H2)) (or_introl eq_refl)).
Defined.

Lemma empty_map_never_matches_witness :
  normalize sample_Unmarshal get_x (start fresh) = Ok plain_args (start fresh) /\
  Diff (criteria (WithHeaders (Some ∅) (NewMockRequest "GET" "/x"))) plain_args
  <> Some 0%nat.
Proof.
  split; [reflexivity|].
  exact (empty_map_never_matches sample_Unmarshal
           (WithHeaders (Some ∅) (NewMockRequest "GET" "/x")) get_x
           (start fresh) (start fresh) plain_args (or_introl eq_refl) eq_refl).
Defined.

Lemma filtered_param_ignored_witness :
  "token"%string ∈ filteredParams filtering_params /\
  (forall args w1,
     normalize sample_Unmarshal (get_x_query token_query) (start filtering_params)
     = Ok args w1 ->
     exists ps,
       args !! 3%nat = Some (VStrMap ps) /\
       ps ≫= (.!! "token"%string) = None /\
       forall values,
         normalize sample_Unmarshal (with_query "token" values (get_x_query token_query))
                   (start filtering_params) = Ok args w1) /\
  (dom (r_Query (get_x_query token_query)) ⊆ filteredParams filtering_params ->
   collect_params (get_x_query token_query) (start filtering_params)
   = Ok None (start filtering_params)).
Proof.
  assert (H : "token"%string ∈ filteredParams filtering_params).
  { apply (elem_of_list_to_set (C := gset string)). by left. }
  split; [exact H|].
  exact (filtered_param_ignored sample_Unmarshal (get_x_query token_query)
           (start filtering_params) "token" H).
Defined.

Lemma times_exact_cardinality_witness :
  Calls (m fresh) = [] /\
  Diff (criteria (NewMockRequest "GET" "/x")) plain_args = Some 0%nat /\
  Z.of_nat 2 <= max_int /\
  expectation_met
    (served 1 0 plain_args
       (m (Times {| c := 0 |} 2
             (WithRequest (NewMockRequest "GET" "/x") (NoResponseBody 204) fresh).2))) 0
  = Some (Some false).
Proof.
  split; [reflexivity|]. split; [reflexivity|].
  assert (Hmax : Z.of_nat 2 <= max_int) by (unfold max_int; lia).
  split; [exact Hmax|].
  exact (proj1 (times_exact_cardinality fresh (NewMockRequest "GET" "/x")
                  (NoResponseBody 204) plain_args 2 1 eq_refl eq_refl
                  (le_S 1 1 (le_n 1)) Hmax (le_S 1 1 (le_n 1)))).
Defined.


Lemma Close_without_reporter_witness :
  t unreported = None /\ Close (start unreported) = Panic PanicNilDeref (start unreported).
Proof.
  split; [reflexivity|].
  exact (Close_without_reporter (start unreported) eq_refl).
Defined.

Lemma assertion_report_witness :
  checkExpectation (m by_default) <$> ExpectedCalls (m by_default) = [Some false] /\
  Close (start by_default) =
    Ok tt (set_log [(reporter, TLogf (MsgFAIL "ServeHTTP" plain_args));
                    (reporter, TErrorf (MsgSummary 0 1))] (start by_default)).
Proof.
  split; [reflexivity|].
  assert (H : Forall2 (fun k b => checkExpectation (m (api (start by_default))) k = Some b)
                      (ExpectedCalls (m (api (start by_default)))) [false]).
  { repeat constructor. }
  exact (proj2 (proj2 (assertion_report (start by_default) reporter [false] H)) eq_refl).
Defined.


Lemma text_and_empty_replies_witness :
  findExpectedCall (m fresh) "ServeHTTP" plain_args = Some (NotFound None) /\
  Diff (criteria (NewMockRequest "GET" "/x")) plain_args = Some 0%nat /\
  normalize sample_Unmarshal get_x (start txt_api) = Ok plain_args (start txt_api) /\
  exists w2,
    serve get_x (start txt_api) = Ok tt w2 /\
    sink w2 = [SWriteHeader 200; SWrite (String.list_byte_of_string "hello")] /\
    log w2 = [].
Proof.
  split; [reflexivity|]. split; [reflexivity|]. split; [reflexivity|].
  exact (proj1 (text_and_empty_replies sample_Unmarshal sample_Marshal fresh
                  (NewMockRequest "GET" "/x") 200 "hello" get_x plain_args
                  (start txt_api) (start txt_api) eq_refl eq_refl eq_refl) eq_refl).
Defined.

Lemma match_is_equality_witness :
  normalize sample_Unmarshal get_x (start fresh) = Ok plain_args (start fresh) /\
  (Diff (criteria (NewMockRequest "GET" "/x")) plain_args = Some 0%nat <->
   criteria (NewMockRequest "GET" "/x") = plain_args).
Proof.
  split; [reflexivity|].
  apply (match_is_equality sample_Unmarshal (NewMockRequest "GET" "/x") get_x
           (start fresh) (start fresh) plain_args); try discriminate; reflexivity.
Defined.

Lemma Anything_body_matches_witness :
  body any_body = Anything /\
  normalize sample_Unmarshal (get_x_with ∅ (Some body_text)) (start fresh)
  = Ok (take 4 plain_args ++ [VObjMap None]) (start fresh) /\
  Diff (criteria any_body) (take 4 plain_args ++ [VObjMap None]) = Some 0%nat.
Proof.
  split; [reflexivity|]. split; [reflexivity|].
  exact (Anything_body_matches sample_Unmarshal any_body
           (get_x_with ∅ (Some body_text)) (start fresh) (start fresh)
           (take 4 plain_args ++ [VObjMap None]) eq_refl eq_refl eq_refl).
Defined.
